(** * The Evolved Transformer of [model/evolved.py]

    The program is a PyTorch module tree.  Hidden states are abstracted to
    what the module code itself decides: the three sizes of a
    (batch, seq_len, channels) tensor and the expression of library calls
    that produced it.  Token-id and boolean tensors keep their data.  Every
    call that Python or PyTorch can reject returns in the [result] monad,
    with the exception class that is raised. *)

From Stdlib Require Import ZArith QArith.QArith_base Lia.
From stdpp Require Import base option list strings gmap.

Set Warnings "-register-all".
Local Open Scope nat_scope.

(** ** Exceptions and the result monad *)

Inductive exn :=
| TypeError
| AttributeError
| IndexError
| ValueError
| RuntimeError
| AssertionError
| NotImplementedError
| ZeroDivisionError
| OutOfScope.   (* a tensor rank this development does not cover *)

Inductive result (A : Type) :=
| Ok (a : A)
| Raise (e : exn).
Arguments Ok {A} a.
Arguments Raise {A} e.

#[global] Instance result_ret : MRet result := fun _ a => Ok a.
#[global] Instance result_bind : MBind result := fun _ _ f m =>
  match m with
  | Ok a => f a
  | Raise e => Raise e
  end.

#[global] Instance result_fmap : FMap result := fun _ _ f m =>
  match m with
  | Ok a => Ok (f a)
  | Raise e => Raise e
  end.

Definition returns {A} (m : result A) : Prop := exists a, m = Ok a.

Definition guard_or (e : exn) (b : bool) : result unit :=
  if b then Ok tt else Raise e.

(** ** Tensors that carry data: token ids and boolean masks *)

Inductive ndarray (A : Type) :=
| Item (a : A)
| Array (items : list (ndarray A)).
Arguments Item {A} a.
Arguments Array {A} items.

Fixpoint nd_shape {A} (t : ndarray A) : list nat :=
  match t with
  | Item _ => []
  | Array items =>
      length items :: match items with
                      | [] => []
                      | a :: _ => nd_shape a
                      end
  end.

Fixpoint ndmap {A B} (f : A -> B) (t : ndarray A) : ndarray B :=
  match t with
  | Item a => Item (f a)
  | Array items => Array (map (ndmap f) items)
  end.

Definition of_rows {A} (rows : list (list A)) : ndarray A :=
  Array (map (fun r => Array (map Item r)) rows).

Definition as_vector {A} (t : ndarray A) : option (list A) :=
  match t with
  | Array items =>
      mapM (fun i => match i with Item a => Some a | Array _ => None end) items
  | Item _ => None
  end.

Definition as_matrix {A} (t : ndarray A) : option (list (list A)) :=
  match t with
  | Array rows => mapM as_vector rows
  | Item _ => None
  end.

(** ** Static description of the library layers *)

Inductive conv_padding :=
| PadN (p : nat)
| PadSame
| PadValid.

(* the mode argument of F.pad *)
Inductive pad_mode := Constant | Reflect | Replicate | Circular.

Module nn.

Module Dropout.
Record t := Build { p : Q }.

(* if p < 0 or p > 1: raise ValueError *)
Definition init (p : Q) : result t :=
  if Qle_bool (0 # 1) p && Qle_bool p (1 # 1) then Ok (Build p)
  else Raise ValueError.
End Dropout.

Module Linear.
Record t := Build { in_features : nat; out_features : nat }.
End Linear.

Module LayerNorm.
Record t := Build { normalized_shape : nat }.
End LayerNorm.

Module Embedding.
Record t := Build { num_embeddings : nat; embedding_dim : nat }.
End Embedding.

Module Conv1d.
Record t := Build {
  in_channels : nat;
  out_channels : nat;
  kernel_size : nat;
  padding : conv_padding;
  groups : nat;
}.

(* _ConvNd.__init__: groups must be positive and divide both channel counts *)
Definition init (in_channels out_channels kernel_size : nat)
    (padding : conv_padding) (groups : nat) : result t :=
  if groups =? 0 then Raise ValueError
  else if negb (in_channels mod groups =? 0) then Raise ValueError
  else if negb (out_channels mod groups =? 0) then Raise ValueError
  else Ok (Build in_channels out_channels kernel_size padding groups).
End Conv1d.

Module MultiheadAttention.
Record t := Build { embed_dim : nat; num_heads : nat; batch_first : bool }.

(* head_dim = embed_dim // num_heads
   assert head_dim * num_heads == embed_dim *)
Definition init (embed_dim num_heads : nat) (batch_first : bool) : result t :=
  if (embed_dim =? 0) || (num_heads =? 0) then Raise ValueError
  else if negb ((embed_dim / num_heads) * num_heads =? embed_dim)
       then Raise AssertionError
  else Ok (Build embed_dim num_heads batch_first).
End MultiheadAttention.

End nn.

(** ** Hidden states: sizes and the expression that produced them *)

Inductive scalar :=
| Sqrt (n : nat)       (* math.sqrt(n) *)
| OfInt (z : Z).

Inductive op1 :=
| OMulScalar (s : scalar)
| OSlice1 (stop : nat)                              (* t[:, :stop] *)
| ODropout (m : nn.Dropout.t)
| OLinear (m : nn.Linear.t)
| OLayerNorm (m : nn.LayerNorm.t)
| OConv1d (m : nn.Conv1d.t)
| OTranspose (d0 d1 : nat)
| OChunk (i split_size dim : nat)                   (* t.split(split_size, dim)[i] *)
| OSigmoid
| OReLU
| OSiLU
| OPad (pad : list Z) (mode : pad_mode) (value : Z). (* F.pad *)

Inductive op2 := OAdd | OMul.

Inductive term :=
| TInput (name : string)
| TBuffer (name : string)
| TEmbedding (m : nn.Embedding.t) (ids : list (list Z))
| T1 (o : op1) (a : term)
| T2 (o : op2) (a b : term)
| TAttention (m : nn.MultiheadAttention.t) (q k v : term)
             (key_padding_mask attn_mask : option mask)
with mask :=
| MBool (bits : ndarray bool)
| MFloat (t : term).

Record tensor := Tensor {
  size0 : nat;
  size1 : nat;
  size2 : nat;
  node : term;
}.

Definition shape (x : tensor) : nat * nat * nat := (size0 x, size1 x, size2 x).

(** ** Python values that flow through the model *)

Inductive value :=
| VNone
| VBool (b : bool)
| VTuple (items : list value)
| VLong (t : ndarray Z)
| VBoolTensor (t : ndarray bool)
| VFloat (t : tensor)
| VFloatAt (t : tensor) (i : nat).   (* t[i], a rank-2 float tensor *)

(** Objects stored as attributes of a module instance. *)
Inductive attr :=
| AInt (z : Z)
| AStr (s : string)
| AModule (cls : string)
| AClass (name : string)
| AMethod (name : string).

(** ** Tensor operations of the library *)

Definition unary (o : op1) (x : tensor) : tensor :=
  Tensor (size0 x) (size1 x) (size2 x) (T1 o (node x)).

(* a dimension index of a rank-3 tensor; negative indices count from the end *)
Definition wrap_dim (d : Z) : result nat :=
  if ((-3 <=? d) && (d <? 3))%Z
  then Ok (Z.to_nat (if (d <? 0)%Z then d + 3 else d))
  else Raise IndexError.

Definition dim_size (x : tensor) (i : nat) : nat :=
  match i with
  | 0 => size0 x
  | 1 => size1 x
  | _ => size2 x
  end.

Definition with_dim (x : tensor) (i n : nat) (t : term) : tensor :=
  match i with
  | 0 => Tensor n (size1 x) (size2 x) t
  | 1 => Tensor (size0 x) n (size2 x) t
  | _ => Tensor (size0 x) (size1 x) n t
  end.

(* x.size(d) *)
Definition size (x : tensor) (d : Z) : result nat :=
  i ← wrap_dim d; Ok (dim_size x i).

(* x.transpose(d0, d1) *)
Definition transpose (x : tensor) (d0 d1 : Z) : result tensor :=
  i ← wrap_dim d0;
  j ← wrap_dim d1;
  let t := T1 (OTranspose i j) (node x) in
  Ok (with_dim (with_dim x i (dim_size x j) t) j (dim_size x i) t).

Definition broadcast_dim (a b : nat) : result nat :=
  if a =? b then Ok a
  else if a =? 1 then Ok b
  else if b =? 1 then Ok a
  else Raise RuntimeError.

Definition binary (o : op2) (a b : tensor) : result tensor :=
  d0 ← broadcast_dim (size0 a) (size0 b);
  d1 ← broadcast_dim (size1 a) (size1 b);
  d2 ← broadcast_dim (size2 a) (size2 b);
  Ok (Tensor d0 d1 d2 (T2 o (node a) (node b))).

(* a + b and a * b, with broadcasting *)
Definition add := binary OAdd.
Definition mul := binary OMul.

(* a += b: the broadcast result must fit the tensor written to *)
Definition iadd (a b : tensor) : result tensor :=
  r ← add a b;
  _ ← guard_or RuntimeError
        ((size0 r =? size0 a) && (size1 r =? size1 a) && (size2 r =? size2 a));
  Ok r.

(* the sizes of the chunks of x.split(split_size, dim):
   num_splits = max(ceil(total / split_size), 1), the last chunk is shorter *)
Definition split_sizes (total split_size : nat) : result (list nat) :=
  if split_size =? 0
  then (if total =? 0 then Ok [0] else Raise RuntimeError)
  else
    let n := Nat.max ((total + split_size - 1) / split_size) 1 in
    Ok (repeat split_size (n - 1) ++ [total - split_size * (n - 1)]).

Definition split (x : tensor) (split_size : nat) (dim : Z) : result (list tensor) :=
  d ← wrap_dim dim;
  sizes ← split_sizes (dim_size x d) split_size;
  Ok (imap (fun i n => with_dim x d n (T1 (OChunk i split_size d) (node x))) sizes).

(* int(n / 2): true division of a non-negative int, then truncation *)
Definition int_half (n : nat) : nat := n / 2.

Module torch.
Definition sigmoid : tensor -> tensor := unary OSigmoid.
End torch.

Module F.
(* the growth of the last, middle and first dimension asked for by a pad
   tuple (left_last, right_last, left_mid, right_mid, left_first, right_first) *)
Definition growth (pad : list Z) : result (Z * Z * Z) :=
  match pad with
  | [l2; r2] => Ok (l2 + r2, 0, 0)%Z
  | [l2; r2; l1; r1] => Ok (l2 + r2, l1 + r1, 0)%Z
  | [l2; r2; l1; r1; l0; r0] => Ok (l2 + r2, l1 + r1, l0 + r0)%Z
  | _ => Raise RuntimeError
  end.

(* F.pad(input, pad, mode, value) on a rank-3 input; a negative amount crops.
   Only the constant mode, the one the model uses, is covered. *)
Definition pad (input : tensor) (pad : list Z) (mode : pad_mode) (value : Z)
    : result tensor :=
  _ ← match mode with
      | Constant => Ok tt
      | _ => Raise OutOfScope
      end;
  g ← growth pad;
  let '(g2, g1, g0) := g in
  let d0 := (Z.of_nat (size0 input) + g0)%Z in
  let d1 := (Z.of_nat (size1 input) + g1)%Z in
  let d2 := (Z.of_nat (size2 input) + g2)%Z in
  _ ← guard_or RuntimeError ((0 <=? d0) && (0 <=? d1) && (0 <=? d2))%Z;
  Ok (Tensor (Z.to_nat d0) (Z.to_nat d1) (Z.to_nat d2)
             (T1 (OPad pad mode value) (node input))).
End F.

(** ** Forward passes of the library layers *)

Definition Dropout_forward (m : nn.Dropout.t) (x : tensor) : tensor :=
  unary (ODropout m) x.

Definition Linear_forward (m : nn.Linear.t) (x : tensor) : result tensor :=
  _ ← guard_or RuntimeError (size2 x =? nn.Linear.in_features m);
  Ok (Tensor (size0 x) (size1 x) (nn.Linear.out_features m)
             (T1 (OLinear m) (node x))).

Definition LayerNorm_forward (m : nn.LayerNorm.t) (x : tensor) : result tensor :=
  _ ← guard_or RuntimeError (size2 x =? nn.LayerNorm.normalized_shape m);
  Ok (unary (OLayerNorm m) x).

(* the output length of a stride-1 convolution; the padded input must be at
   least as long as the kernel *)
Definition conv_length (m : nn.Conv1d.t) (l : nat) : result nat :=
  let k := nn.Conv1d.kernel_size m in
  match nn.Conv1d.padding m with
  | PadN p => if l + 2 * p <? k then Raise RuntimeError
              else Ok (l + 2 * p - k + 1)
  | PadSame => if l + (k - 1) <? k then Raise RuntimeError else Ok l
  | PadValid => if l <? k then Raise RuntimeError else Ok (l - k + 1)
  end.

(* input laid out (batch, channels, length); the weight must have at least
   one output channel per group *)
Definition Conv1d_forward (m : nn.Conv1d.t) (x : tensor) : result tensor :=
  _ ← guard_or RuntimeError (size1 x =? nn.Conv1d.in_channels m);
  _ ← guard_or RuntimeError (nn.Conv1d.groups m <=? nn.Conv1d.out_channels m);
  l ← conv_length m (size2 x);
  Ok (Tensor (size0 x) (nn.Conv1d.out_channels m) l (T1 (OConv1d m) (node x))).

Definition rectangular {A} (rows : list (list A)) : bool :=
  forallb (fun r => length r =? length (hd [] rows)) rows.

(* token ids of shape (batch, seq_len), each an index into the table *)
Definition Embedding_forward (m : nn.Embedding.t) (ids : ndarray Z) : result tensor :=
  match as_matrix ids with
  | None => Raise OutOfScope
  | Some rows =>
      _ ← guard_or OutOfScope (rectangular rows);
      _ ← guard_or IndexError
            (forallb (forallb (fun i =>
               (0 <=? i)%Z && (i <? Z.of_nat (nn.Embedding.num_embeddings m))%Z)) rows);
      Ok (Tensor (length rows) (length (hd [] rows)) (nn.Embedding.embedding_dim m)
                 (TEmbedding m rows))
  end.

(* F._canonical_mask: None, or a bool or float tensor; its sizes *)
Definition canonical_mask (v : value) : result (option (list nat * mask)) :=
  match v with
  | VNone => Ok None
  | VBoolTensor bits => Ok (Some (nd_shape bits, MBool bits))
  | VFloat t => Ok (Some ([size0 t; size1 t; size2 t], MFloat (node t)))
  | VFloatAt t _ => Ok (Some ([size1 t; size2 t], MFloat (node t)))
  | VLong _ => Raise AssertionError
  | VBool _ | VTuple _ => Raise TypeError
  end.

Definition list_nat_eqb (a b : list nat) : bool := bool_decide (a = b).

(* MultiheadAttention.forward(query, key, value, key_padding_mask=...,
   attn_mask=..., need_weights=False)[0] *)
Definition MultiheadAttention_forward (m : nn.MultiheadAttention.t)
    (query key val : tensor) (key_padding_mask attn_mask : value) : result tensor :=
  let bf := nn.MultiheadAttention.batch_first m in
  let e := nn.MultiheadAttention.embed_dim m in
  let batch x := if bf then size0 x else size1 x in
  let len x := if bf then size1 x else size0 x in
  kpm ← canonical_mask key_padding_mask;
  am ← canonical_mask attn_mask;
  _ ← guard_or AssertionError (size2 query =? e);
  _ ← guard_or AssertionError ((batch key =? batch val) && (len key =? len val));
  _ ← guard_or RuntimeError ((size2 key =? e) && (size2 val =? e));
  _ ← guard_or RuntimeError (batch key =? batch query);
  _ ← guard_or AssertionError
        match kpm with
        | None => true
        | Some (dims, _) => list_nat_eqb dims [batch query; len key]
        end;
  _ ← guard_or RuntimeError
        match am with
        | None => true
        | Some (dims, _) =>
            list_nat_eqb dims [len query; len key]
            || list_nat_eqb dims
                 [batch query * nn.MultiheadAttention.num_heads m; len query; len key]
        end;
  Ok (Tensor (size0 query) (size1 query) (size2 query)
             (TAttention m (node query) (node key) (node val)
                         (snd <$> kpm) (snd <$> am))).

(* self.layer_norms[i] *)
Definition getitem {A} (l : list A) (i : nat) : result A :=
  match l !! i with
  | Some a => Ok a
  | None => Raise IndexError
  end.

(* a, b = chunks *)
Definition unpack_pair {A} (items : list A) : result (A * A) :=
  match items with
  | [a; b] => Ok (a, b)
  | _ => Raise ValueError
  end.

(** ** The model's configuration *)

Module Config.
Record t := Build {
  vocab_size : nat;
  emb_dim : nat;
  hidden_dim : nat;
  pff_dim : nat;
  n_heads : nat;
  n_layers : nat;
  dropout_ratio : Q;
  pad_id : Z;
  device : string;
}.
End Config.

(* clones(module, N): N deep copies, each with parameters of its own *)
Definition clones {A} (module : A) (N : nat) : list A := replicate N module.

(** ** PositionalEncoding *)

Module PositionalEncoding.
Record t := Build { dropout : nn.Dropout.t; pe : tensor }.

(* div_term divides math.log(10000.0) by emb_dim.
   pe[:, 0::2] and pe[:, 1::2] are both assigned a table with one column per
   even index below emb_dim, so the odd columns must be as many (or the
   table has a single column) *)
Definition init_with (config : Config.t) (max_len : nat) : result t :=
  dropout ← nn.Dropout.init (Config.dropout_ratio config);
  let emb_dim := Config.emb_dim config in
  _ ← guard_or ZeroDivisionError (negb (emb_dim =? 0));
  let even_cols := (emb_dim + 1) / 2 in
  let odd_cols := emb_dim / 2 in
  _ ← guard_or RuntimeError ((even_cols =? odd_cols) || (even_cols =? 1));
  Ok (Build dropout (Tensor 1 max_len emb_dim (TBuffer "pe"))).

Definition init (config : Config.t) : result t := init_with config 512.

Definition forward (self : t) (x : tensor) : result tensor :=
  n ← size x 1;
  let rows := Tensor (size0 (pe self)) (Nat.min n (size1 (pe self)))
                     (size2 (pe self)) (T1 (OSlice1 n) (node (pe self))) in
  x ← add x rows;
  Ok (Dropout_forward (dropout self) x).
End PositionalEncoding.

(** ** Embeddings *)

(* the indices handed to nn.Embedding must be an integer tensor *)
Definition as_long (v : value) : result (ndarray Z) :=
  match v with
  | VLong t => Ok t
  | VBoolTensor _ | VFloat _ | VFloatAt _ _ => Raise RuntimeError
  | VNone | VBool _ | VTuple _ => Raise TypeError
  end.

Module Embeddings.
Record t := Build {
  tok_emb : nn.Embedding.t;
  scale : scalar;
  pos_emb : PositionalEncoding.t;
  dropout : nn.Dropout.t;
  use_fc_layer : bool;
  fc : option nn.Linear.t;
}.

Definition init (config : Config.t) : result t :=
  let tok_emb := nn.Embedding.Build (Config.vocab_size config) (Config.emb_dim config) in
  let scale := Sqrt (Config.emb_dim config) in
  pos_emb ← PositionalEncoding.init config;
  dropout ← nn.Dropout.init (Config.dropout_ratio config);
  let use_fc_layer := negb (Config.emb_dim config =? Config.hidden_dim config) in
  Ok (Build tok_emb scale pos_emb dropout use_fc_layer
        (if use_fc_layer
         then Some (nn.Linear.Build (Config.emb_dim config) (Config.hidden_dim config))
         else None)).

Definition forward (self : t) (x : value) : result tensor :=
  ids ← as_long x;
  out ← Embedding_forward (tok_emb self) ids;
  let out := unary (OMulScalar (scale self)) out in
  out ← PositionalEncoding.forward (pos_emb self) out;
  if use_fc_layer self then
    fc ← match fc self with Some l => Ok l | None => Raise AttributeError end;
    out ← Linear_forward fc out;
    Ok (Dropout_forward (dropout self) out)
  else Ok (Dropout_forward (dropout self) out).
End Embeddings.

(** ** GatedConvolution (GLU) *)

Module GatedConvolution.
Record t := Build { conv : nn.Conv1d.t }.

(* init.xavier_uniform_ divides by fan_in + fan_out of the weight *)
Definition init_with (hidden_dim kernel_size padding : nat) : result t :=
  conv ← nn.Conv1d.init hidden_dim (hidden_dim * 2) kernel_size (PadN padding) 1;
  let fan_in := hidden_dim * kernel_size in
  let fan_out := hidden_dim * 2 * kernel_size in
  _ ← guard_or ZeroDivisionError (negb (fan_in + fan_out =? 0));
  Ok (Build conv).

(* kernel_size=3, padding=1 *)
Definition init (hidden_dim : nat) : result t := init_with hidden_dim 3 1.

Definition forward (self : t) (x : tensor) : result tensor :=
  xt ← transpose x 1 2;
  c ← Conv1d_forward (conv self) xt;
  convoluted ← transpose c 1 2;
  width ← size convoluted (-1);
  chunks ← split convoluted (int_half width) (-1);
  '(out, gate) ← unpack_pair chunks;
  mul out (torch.sigmoid gate).
End GatedConvolution.

(** ** SeparableConv1D *)

Module SeparableConv1D.
Record t := Build { depth_wise : nn.Conv1d.t; point_wise : nn.Conv1d.t }.

Definition init (in_channels out_channels kernel_size : nat) : result t :=
  depth_wise ← nn.Conv1d.init in_channels in_channels kernel_size PadSame in_channels;
  point_wise ← nn.Conv1d.init in_channels out_channels 1 (PadN 0) 1;
  Ok (Build depth_wise point_wise).

Definition forward (self : t) (x : tensor) : result tensor :=
  out ← Conv1d_forward (depth_wise self) x;
  Conv1d_forward (point_wise self) out.
End SeparableConv1D.

(** nn.Sequential over the layer kinds the model stacks *)
Inductive layer :=
| LLinear (m : nn.Linear.t)
| LConv1d (m : nn.Conv1d.t)
| LDropout (m : nn.Dropout.t)
| LSeparableConv1D (m : SeparableConv1D.t)
| LReLU
| LSiLU.

Definition layer_forward (l : layer) (x : tensor) : result tensor :=
  match l with
  | LLinear m => Linear_forward m x
  | LConv1d m => Conv1d_forward m x
  | LDropout m => Ok (Dropout_forward m x)
  | LSeparableConv1D m => SeparableConv1D.forward m x
  | LReLU => Ok (unary OReLU x)
  | LSiLU => Ok (unary OSiLU x)
  end.

Fixpoint Sequential_forward (layers : list layer) (x : tensor) : result tensor :=
  match layers with
  | [] => Ok x
  | l :: rest => y ← layer_forward l x; Sequential_forward rest y
  end.


(** ** EncoderCell *)

Module EncoderCell.
Record t := Build {
  pad_id : Z;
  glu : GatedConvolution.t;
  attention : nn.MultiheadAttention.t;
  mid_layer_norm : nn.LayerNorm.t;
  layer_norms : list nn.LayerNorm.t;
  left_net : list layer;
  right_net : list layer;
  sep_conv : SeparableConv1D.t;
  pff : list layer;
}.

Definition init (config : Config.t) : result t :=
  let hidden_dim := Config.hidden_dim config in
  let pff_dim := Config.pff_dim config in
  glu ← GatedConvolution.init hidden_dim;
  attention ← nn.MultiheadAttention.init hidden_dim (Config.n_heads config) true;
  let mid_layer_norm := nn.LayerNorm.Build pff_dim in
  let layer_norms := replicate 4 (nn.LayerNorm.Build hidden_dim) in
  left_drop ← nn.Dropout.init (Config.dropout_ratio config);
  let left_net :=
    [LLinear (nn.Linear.Build hidden_dim pff_dim); LReLU; LDropout left_drop] in
  right_conv ← nn.Conv1d.init hidden_dim (hidden_dim / 2) 3 (PadN 1) 1;
  right_drop ← nn.Dropout.init (Config.dropout_ratio config);
  let right_net := [LConv1d right_conv; LReLU; LDropout right_drop] in
  sep_conv ← SeparableConv1D.init pff_dim (hidden_dim / 2) 9;
  let pff :=
    [LLinear (nn.Linear.Build hidden_dim pff_dim); LSiLU;
     LLinear (nn.Linear.Build pff_dim hidden_dim)] in
  Ok (Build (Config.pad_id config) glu attention mid_layer_norm layer_norms
            left_net right_net sep_conv pff).

Definition forward (self : t) (x : tensor) (e_mask : value) : result tensor :=
  (* Block_01 *)
  norm ← getitem (layer_norms self) 0;
  normed ← LayerNorm_forward norm x;
  B01_out ← GatedConvolution.forward (glu self) normed;
  (* Block_02 *)
  norm ← getitem (layer_norms self) 1;
  B02_normed ← LayerNorm_forward norm B01_out;
  left_out ← Sequential_forward (left_net self) B02_normed;
  t ← transpose B02_normed 1 2;
  r ← Sequential_forward (right_net self) t;
  right_out ← transpose r 1 2;
  left_width ← size left_out (-1);
  right_width ← size right_out (-1);
  right_out ← F.pad right_out
                 [0; Z.of_nat left_width - Z.of_nat right_width; 0; 0; 0; 0]%Z
                 Constant (pad_id self);
  B02_out ← add left_out right_out;
  (* Block_03 *)
  B03_out ← LayerNorm_forward (mid_layer_norm self) B02_out;
  t ← transpose B03_out 1 2;
  c ← SeparableConv1D.forward (sep_conv self) t;
  B03_out ← transpose c 1 2;
  B01_width ← size B01_out (-1);
  B03_width ← size B03_out (-1);
  B03_out ← F.pad B03_out
               [0; Z.of_nat B01_width - Z.of_nat B03_width; 0; 0; 0; 0]%Z
               Constant (pad_id self);
  B03_out ← iadd B03_out B01_out;
  (* Block_04 *)
  norm ← getitem (layer_norms self) 2;
  B04_out ← LayerNorm_forward norm B03_out;
  attention_out ← MultiheadAttention_forward (attention self)
                     B04_out B04_out B04_out e_mask VNone;
  B04_out ← iadd B04_out attention_out;
  (* Block_05 & 06 *)
  norm ← getitem (layer_norms self) 3;
  out ← LayerNorm_forward norm B04_out;
  out ← Sequential_forward (pff self) out;
  add out B04_out.
End EncoderCell.

(** ** DecoderCell *)

Module DecoderCell.
Record t := Build {
  pad_id : Z;
  dropout : nn.Dropout.t;
  attention : nn.MultiheadAttention.t;
  mid_layer_norm : nn.LayerNorm.t;
  layer_norms : list nn.LayerNorm.t;
  left_attn : nn.MultiheadAttention.t;
  right_attn : nn.MultiheadAttention.t;
  left_net : list layer;
  right_net : SeparableConv1D.t;
  sep_conv : SeparableConv1D.t;
  self_attn : nn.MultiheadAttention.t;
  src_attn : nn.MultiheadAttention.t;
  pff : list layer;
}.

Definition init (config : Config.t) : result t :=
  let hidden_dim := Config.hidden_dim config in
  let n_heads := Config.n_heads config in
  dropout ← nn.Dropout.init (Config.dropout_ratio config);
  attention ← nn.MultiheadAttention.init hidden_dim n_heads false;
  let mid_layer_norm := nn.LayerNorm.Build (hidden_dim * 2) in
  let layer_norms := replicate 5 (nn.LayerNorm.Build hidden_dim) in
  left_attn ← nn.MultiheadAttention.init hidden_dim (n_heads * 2) true;
  right_attn ← nn.MultiheadAttention.init hidden_dim n_heads true;
  left_conv ← SeparableConv1D.init hidden_dim (hidden_dim * 2) 11;
  let left_net := [LSeparableConv1D left_conv; LReLU] in
  right_net ← SeparableConv1D.init hidden_dim (hidden_dim / 2) 7;
  sep_conv ← SeparableConv1D.init (hidden_dim * 2) hidden_dim 7;
  self_attn ← nn.MultiheadAttention.init hidden_dim (n_heads * 2) true;
  src_attn ← nn.MultiheadAttention.init hidden_dim n_heads true;
  let pff :=
    [LLinear (nn.Linear.Build hidden_dim (Config.pff_dim config)); LReLU;
     LLinear (nn.Linear.Build (Config.pff_dim config) hidden_dim)] in
  Ok (Build (Config.pad_id config) dropout attention mid_layer_norm layer_norms
            left_attn right_attn left_net right_net sep_conv self_attn src_attn pff).

Definition forward (self : t) (x memory : tensor) (e_mask d_mask : value)
    : result tensor :=
  (* Block_01 *)
  norm ← getitem (layer_norms self) 0;
  B01_out ← LayerNorm_forward norm x;
  left_out ← MultiheadAttention_forward (left_attn self)
                B01_out B01_out B01_out VNone d_mask;
  right_out ← MultiheadAttention_forward (right_attn self)
                 B01_out B01_out B01_out VNone d_mask;
  B01_out ← add left_out right_out;
  (* Block_02 *)
  norm ← getitem (layer_norms self) 1;
  B02_out ← LayerNorm_forward norm B01_out;
  t ← transpose B02_out 1 2;
  l ← Sequential_forward (left_net self) t;
  left_out ← transpose l 1 2;
  t ← transpose B02_out 1 2;
  r ← SeparableConv1D.forward (right_net self) t;
  right_out ← transpose r 1 2;
  left_width ← size left_out (-1);
  right_width ← size right_out (-1);
  right_out ← F.pad right_out
                 [0; Z.of_nat left_width - Z.of_nat right_width; 0; 0; 0; 0]%Z
                 Constant (pad_id self);
  B02_out ← add left_out right_out;
  (* Block_03 *)
  B03_out ← LayerNorm_forward (mid_layer_norm self) B02_out;
  t ← transpose B03_out 1 2;
  c ← SeparableConv1D.forward (sep_conv self) t;
  B03_out ← transpose c 1 2;
  B03_out ← iadd B03_out B01_out;
  (* Block_04 *)
  norm ← getitem (layer_norms self) 2;
  B04_out ← LayerNorm_forward norm B03_out;
  B04_out ← MultiheadAttention_forward (self_attn self)
               B04_out B04_out B04_out VNone d_mask;
  B04_out ← iadd B04_out B03_out;
  (* Block_05 *)
  norm ← getitem (layer_norms self) 3;
  B05_out ← LayerNorm_forward norm B04_out;
  B05_out ← MultiheadAttention_forward (src_attn self)
               B05_out memory memory e_mask VNone;
  B05_out ← iadd B05_out B04_out;
  (* Block_06 & Block_07 *)
  norm ← getitem (layer_norms self) 4;
  out ← LayerNorm_forward norm B05_out;
  out ← Sequential_forward (pff self) out;
  add out B05_out.
End DecoderCell.

(** ** Calling a module: binding arguments to the parameters of [forward] *)

Fixpoint bind_keywords (params : list string) (kwargs : list (string * value))
    (bound : gmap string value) : result (gmap string value) :=
  match kwargs with
  | [] => Ok bound
  | (name, v) :: rest =>
      (* an unexpected keyword argument *)
      _ ← guard_or TypeError (bool_decide (name ∈ params));
      (* multiple values for one parameter *)
      _ ← guard_or TypeError (bool_decide (bound !! name = None));
      bind_keywords params rest (<[name := v]> bound)
  end.

Definition bind_arguments (params : list string) (args : list value)
    (kwargs : list (string * value)) : result (gmap string value) :=
  (* too many positional arguments *)
  _ ← guard_or TypeError (length args <=? length params);
  bound ← bind_keywords params kwargs (list_to_map (zip params args));
  (* a missing required argument *)
  _ ← guard_or TypeError (forallb (fun name => bool_decide (is_Some (bound !! name))) params);
  Ok bound.

Definition argument (bound : gmap string value) (name : string) : result value :=
  match bound !! name with
  | Some v => Ok v
  | None => Raise TypeError
  end.

(* the hidden state a cell is called on *)
Definition as_float (v : value) : result tensor :=
  match v with
  | VFloat t => Ok t
  | VFloatAt _ _ => Raise OutOfScope
  | VLong _ | VBoolTensor _ => Raise RuntimeError
  | VNone | VBool _ | VTuple _ => Raise TypeError
  end.

(* Module.__call__ hands its arguments to forward(self, x, e_mask) *)
Definition EncoderCell_call (cell : EncoderCell.t) (args : list value)
    (kwargs : list (string * value)) : result tensor :=
  bound ← bind_arguments ["x"; "e_mask"] args kwargs;
  x ← argument bound "x";
  e_mask ← argument bound "e_mask";
  x ← as_float x;
  EncoderCell.forward cell x e_mask.

(* Module.__call__ hands its arguments to forward(self, x, memory, e_mask, d_mask) *)
Definition DecoderCell_call (cell : DecoderCell.t) (args : list value)
    (kwargs : list (string * value)) : result tensor :=
  bound ← bind_arguments ["x"; "memory"; "e_mask"; "d_mask"] args kwargs;
  x ← argument bound "x";
  memory ← argument bound "memory";
  e_mask ← argument bound "e_mask";
  d_mask ← argument bound "d_mask";
  x ← as_float x;
  memory ← as_float memory;
  DecoderCell.forward cell x memory e_mask d_mask.

(** ** EvolvedEncoder *)

Module EvolvedEncoder.
Record t := Build { embeddings : Embeddings.t; cells : list EncoderCell.t }.

Definition init (config : Config.t) : result t :=
  embeddings ← Embeddings.init config;
  cell ← EncoderCell.init config;
  Ok (Build embeddings (clones cell (Config.n_layers config / 2))).

(* for cell in cells: x = cell(x, src_key_padding_mask=e_mask) *)
Fixpoint loop (cells : list EncoderCell.t) (x : tensor) (e_mask : value)
    : result tensor :=
  match cells with
  | [] => Ok x
  | cell :: rest =>
      x ← EncoderCell_call cell [VFloat x] [("src_key_padding_mask", e_mask)];
      loop rest x e_mask
  end.

Definition forward (self : t) (x : value) (e_mask : value) : result tensor :=
  x ← Embeddings.forward (embeddings self) x;
  loop (cells self) x e_mask.
End EvolvedEncoder.

(** ** EvolvedDecoder *)

Module EvolvedDecoder.
Record t := Build { embeddings : Embeddings.t; cells : list DecoderCell.t }.

Definition init (config : Config.t) : result t :=
  embeddings ← Embeddings.init config;
  cell ← DecoderCell.init config;
  Ok (Build embeddings (clones cell (Config.n_layers config / 2))).

(* for cell in cells: x = cell(x, memory, e_mask, d_mask) *)
Fixpoint loop (cells : list DecoderCell.t) (x memory : tensor)
    (e_mask d_mask : value) : result tensor :=
  match cells with
  | [] => Ok x
  | cell :: rest =>
      x ← DecoderCell_call cell [VFloat x; VFloat memory; e_mask; d_mask] [];
      loop rest x memory e_mask d_mask
  end.

Definition forward (self : t) (x : value) (memory : tensor)
    (e_mask d_mask : value) : result tensor :=
  x ← Embeddings.forward (embeddings self) x;
  loop (cells self) x memory e_mask d_mask.
End EvolvedDecoder.

(** ** EvolvedTransformer *)

(* y, label = v *)
Definition unpack2 (v : value) : result (value * value) :=
  match v with
  | VNone | VBool _ => Raise TypeError          (* not iterable *)
  | VTuple items => unpack_pair items
  | VLong (Item _) | VBoolTensor (Item _) => Raise TypeError   (* a 0-d tensor *)
  | VLong (Array items) => unpack_pair (VLong <$> items)
  | VBoolTensor (Array items) => unpack_pair (VBoolTensor <$> items)
  | VFloat t => unpack_pair (VFloatAt t <$> seq 0 (size0 t))
  | VFloatAt _ _ => Raise OutOfScope
  end.

(* x == other for a tensor of ids and an attribute of the model: elementwise
   against a number; for any other operand Tensor.__eq__ and the reflected
   comparison both answer NotImplemented and Python compares identities *)
Definition Tensor_eq (x : ndarray Z) (other : attr) : value :=
  match other with
  | AInt k => VBoolTensor (ndmap (fun v => (v =? k)%Z) x)
  | AStr _ | AModule _ | AClass _ | AMethod _ => VBool false
  end.

(* v.size(d) *)
Definition value_size (v : value) (d : Z) : result nat :=
  let of_dims (dims : list nat) :=
    let rank := Z.of_nat (length dims) in
    if ((- rank <=? d) && (d <? rank))%Z
    then getitem dims (Z.to_nat (if (d <? 0)%Z then d + rank else d))
    else Raise IndexError in
  match v with
  | VLong t => of_dims (nd_shape t)
  | VBoolTensor t => of_dims (nd_shape t)
  | VFloat t => size t d
  | VFloatAt t _ => of_dims [size1 t; size2 t]
  | VNone | VBool _ | VTuple _ => Raise AttributeError
  end.

(* v.to(device) *)
Definition value_to (v : value) (device : string) : result value :=
  match v with
  | VNone | VBool _ | VTuple _ => Raise AttributeError
  | VLong _ | VBoolTensor _ | VFloat _ | VFloatAt _ _ => Ok v
  end.

Module Out.
(* namedtuple('Out', 'logit loss'); forward assigns logit only *)
Record t := Build { logit : tensor; loss : option Q }.
End Out.

Module EvolvedTransformer.
Record t := Build {
  pad_id : Z;
  device : string;
  vocab_size : nat;
  encoder : EvolvedEncoder.t;
  decoder : EvolvedDecoder.t;
  generator : nn.Linear.t;
}.

Definition init (config : Config.t) : result t :=
  encoder ← EvolvedEncoder.init config;
  decoder ← EvolvedDecoder.init config;
  Ok (Build (Config.pad_id config) (Config.device config) (Config.vocab_size config)
            encoder decoder
            (nn.Linear.Build (Config.hidden_dim config) (Config.vocab_size config))).

(* what __init__ stores on the instance *)
Definition instance_dict (self : t) : gmap string attr :=
  {[ "pad_id" := AInt (pad_id self);
     "device" := AStr (device self);
     "vocab_size" := AInt (Z.of_nat (vocab_size self));
     "out" := AClass "Out" ]}.

Definition submodules : gmap string attr :=
  {[ "encoder" := AModule "EvolvedEncoder";
     "decoder" := AModule "EvolvedDecoder";
     "generator" := AModule "Linear";
     "criterion" := AModule "CrossEntropyLoss" ]}.

Definition methods : list string := ["pad_mask"; "dec_mask"; "shift_y"; "forward"].

(* self.name: the instance dictionary, then the class, then the submodules *)
Definition getattr (self : t) (name : string) : result attr :=
  match instance_dict self !! name with
  | Some a => Ok a
  | None =>
      if bool_decide (name ∈ methods) then Ok (AMethod name)
      else match submodules !! name with
           | Some a => Ok a
           | None => Raise AttributeError
           end
  end.

Definition pad_mask (self : t) (x : ndarray Z) : result value :=
  other ← getattr self "pad_mask";
  Ok (Tensor_eq x other).

Definition dec_mask (self : t) (x : value) : result value :=
  sz ← value_size x 1;
  let mask := VNone in
  value_to mask (device self).

Definition shift_y (y : ndarray Z) : value := VNone.

Definition forward (self : t) (x y : ndarray Z) : result Out.t :=
  '(y, label) ← unpack2 (shift_y y);
  e_mask ← pad_mask self x;
  d_mask ← dec_mask self y;
  memory ← EvolvedEncoder.forward (encoder self) (VLong x) e_mask;
  dec_out ← EvolvedDecoder.forward (decoder self) y memory e_mask d_mask;
  logit ← Linear_forward (generator self) dec_out;
  Ok (Out.Build logit None).
End EvolvedTransformer.

(** ** Notions used to state the properties *)

(* a mask that attention accepts as key_padding_mask for [n] sequences of
   [s] keys, and as attn_mask for [l] queries over [s] keys *)
Definition key_padding_mask_ok (v : value) (n s : nat) : Prop :=
  v = VNone \/ exists bits, v = VBoolTensor bits /\ nd_shape bits = [n; s].

Definition attn_mask_ok (v : value) (l s : nat) : Prop :=
  v = VNone \/ exists bits, v = VBoolTensor bits /\ nd_shape bits = [l; s].

Definition mask_term (v : value) : option mask :=
  match v with
  | VBoolTensor bits => Some (MBool bits)
  | _ => None
  end.

Definition dropout_ratio_ok (config : Config.t) : Prop :=
  Qle_bool (0 # 1) (Config.dropout_ratio config)
  && Qle_bool (Config.dropout_ratio config) (1 # 1) = true.

(* a configuration both cells can be built from: every attention layer has
   a head count (n_heads or 2 * n_heads) that divides hidden_dim *)
Definition valid_config (config : Config.t) : Prop :=
  1 <= Config.hidden_dim config
  /\ (Config.n_heads config | Config.hidden_dim config)
  /\ (2 * Config.n_heads config | Config.hidden_dim config)
  /\ Config.hidden_dim config / 2 <= Config.pff_dim config
  /\ dropout_ratio_ok config.

(* every F.pad call in an expression: its pad tuple, mode and fill value *)
Fixpoint pads_in (t : term) : list (list Z * pad_mode * Z) :=
  match t with
  | TInput _ | TBuffer _ | TEmbedding _ _ => []
  | T1 o a =>
      match o with
      | OPad pad mode value => [(pad, mode, value)]
      | _ => []
      end ++ pads_in a
  | T2 _ a b => pads_in a ++ pads_in b
  | TAttention _ q k v kpm am =>
      pads_in q ++ pads_in k ++ pads_in v
      ++ match kpm with Some (MFloat m) => pads_in m | _ => [] end
      ++ match am with Some (MFloat m) => pads_in m | _ => [] end
  end.

(* the number of dropout layers an expression has gone through *)
Fixpoint dropouts_in (t : term) : nat :=
  match t with
  | TInput _ | TBuffer _ | TEmbedding _ _ => 0
  | T1 o a =>
      match o with
      | ODropout _ => 1
      | _ => 0
      end + dropouts_in a
  | T2 _ a b => dropouts_in a + dropouts_in b
  | TAttention _ q k v kpm am =>
      dropouts_in q + dropouts_in k + dropouts_in v
      + match kpm with Some (MFloat m) => dropouts_in m | _ => 0 end
      + match am with Some (MFloat m) => dropouts_in m | _ => 0 end
  end.


(* the arguments of a constant pad call that widens the last dimension
   from [narrow] to [wide] *)
Definition pad_call (narrow wide : nat) (fill : Z) : list Z * pad_mode * Z :=
  ([0; Z.of_nat wide - Z.of_nat narrow; 0; 0; 0; 0]%Z, Constant, fill).

(* the cells that [init] builds from a valid configuration *)
Definition encoder_cell (config : Config.t) : EncoderCell.t :=
  let h := Config.hidden_dim config in
  let p := Config.pff_dim config in
  let d := nn.Dropout.Build (Config.dropout_ratio config) in
  EncoderCell.Build (Config.pad_id config)
    (GatedConvolution.Build (nn.Conv1d.Build h (h * 2) 3 (PadN 1) 1))
    (nn.MultiheadAttention.Build h (Config.n_heads config) true)
    (nn.LayerNorm.Build p)
    (replicate 4 (nn.LayerNorm.Build h))
    [LLinear (nn.Linear.Build h p); LReLU; LDropout d]
    [LConv1d (nn.Conv1d.Build h (h / 2) 3 (PadN 1) 1); LReLU; LDropout d]
    (SeparableConv1D.Build (nn.Conv1d.Build p p 9 PadSame p)
                           (nn.Conv1d.Build p (h / 2) 1 (PadN 0) 1))
    [LLinear (nn.Linear.Build h p); LSiLU; LLinear (nn.Linear.Build p h)].

Definition decoder_cell (config : Config.t) : DecoderCell.t :=
  let h := Config.hidden_dim config in
  let p := Config.pff_dim config in
  let heads := Config.n_heads config in
  let sep i o k := SeparableConv1D.Build (nn.Conv1d.Build i i k PadSame i)
                                         (nn.Conv1d.Build i o 1 (PadN 0) 1) in
  DecoderCell.Build (Config.pad_id config)
    (nn.Dropout.Build (Config.dropout_ratio config))
    (nn.MultiheadAttention.Build h heads false)
    (nn.LayerNorm.Build (h * 2))
    (replicate 5 (nn.LayerNorm.Build h))
    (nn.MultiheadAttention.Build h (heads * 2) true)
    (nn.MultiheadAttention.Build h heads true)
    [LSeparableConv1D (sep h (h * 2) 11); LReLU]
    (sep h (h / 2) 7)
    (sep (h * 2) h 7)
    (nn.MultiheadAttention.Build h (heads * 2) true)
    (nn.MultiheadAttention.Build h heads true)
    [LLinear (nn.Linear.Build h p); LReLU; LLinear (nn.Linear.Build p h)].

(* the precondition on the configuration as the specification words it *)
Definition claimed_config (config : Config.t) : Prop :=
  (Config.n_heads config | Config.hidden_dim config)
  /\ (Config.n_heads config | 2 * Config.hidden_dim config)
  /\ Config.hidden_dim config / 2 <= Config.pff_dim config.

(* lookup(token_ids) * sqrt(emb_dim) + positional_encoding *)
Definition positioned (config : Config.t) (rows : list (list Z)) : term :=
  T2 OAdd
     (T1 (OMulScalar (Sqrt (Config.emb_dim config)))
         (TEmbedding (nn.Embedding.Build (Config.vocab_size config)
                                         (Config.emb_dim config)) rows))
     (T1 (OSlice1 (length (hd [] rows))) (TBuffer "pe")).

(* the optional projection: fc when emb_dim differs from hidden_dim *)
Definition projected (config : Config.t) (t : term) : term :=
  if Config.emb_dim config =? Config.hidden_dim config then t
  else T1 (OLinear (nn.Linear.Build (Config.emb_dim config)
                                    (Config.hidden_dim config))) t.

Definition config_dropout (config : Config.t) : op1 :=
  ODropout (nn.Dropout.Build (Config.dropout_ratio config)).

(* the output of Embeddings.forward as the specification words it:
   dropout(project(lookup * sqrt(emb_dim) + pe)) *)
Definition single_dropout_output (config : Config.t) (rows : list (list Z)) : term :=
  T1 (config_dropout config) (projected config (positioned config rows)).

(** ** The scenarios of the specification *)

(* batch=2, src_len=6, tgt_len=5, vocab_size=37, hidden_dim=16, n_heads=4,
   pff_dim=32, n_layers=2, pad_id=0 *)
Definition scenario_config : Config.t :=
  Config.Build 37 16 16 32 4 2 (1 # 10) 0 "cpu".

Definition scenario_source : ndarray Z :=
  of_rows [[3; 4; 5; 6; 0; 0]; [7; 8; 9; 1; 2; 0]]%Z.

Definition scenario_target : ndarray Z :=
  of_rows [[5; 6; 7; 8; 9]; [5; 6; 7; 8; 0]]%Z.

Definition scenario_embeddings : Embeddings.t :=
  let d := nn.Dropout.Build (1 # 10) in
  Embeddings.Build (nn.Embedding.Build 37 16) (Sqrt 16)
    (PositionalEncoding.Build d (Tensor 1 512 16 (TBuffer "pe"))) d false None.

Definition scenario_encoder : EvolvedEncoder.t :=
  EvolvedEncoder.Build scenario_embeddings [encoder_cell scenario_config].

(* as the scenario, with an embedding narrower than the hidden state *)
Definition projecting_config : Config.t :=
  Config.Build 37 8 16 32 4 2 (1 # 10) 0 "cpu".

(* hidden_dim = 64 with n_heads = 64 *)
Definition wide_heads_config : Config.t :=
  Config.Build 37 64 64 128 64 2 (1 # 10) 0 "cpu".

(** * Data preparation: [setup.py] *)

(* a Python str is a string with one character per code point; str.strip and
   str.lower are parameters of the functions that call them *)
Module Setup.

Inductive error := KeyError (key : string).

Inductive outcome (A : Type) :=
| Done (a : A)
| Failed (e : error).
Arguments Done {A} a.
Arguments Failed {A} e.

(* what the functions leave on disk: the text or the records handed to a
   file opened for writing *)
Inductive write :=
| WriteText (path : string) (text : string)
| WriteJson (path : string) (records : list (gmap string string)).

(* elem[key] *)
Definition getitem (elem : gmap string string) (key : string) : outcome string :=
  match elem !! key with
  | Some v => Done v
  | None => Failed (KeyError key)
  end.

(* len(s) *)
Definition len (s : string) : Z := Z.of_nat (String.length s).

Definition newline : string := String (Ascii.ascii_of_nat 10) EmptyString.

(* sep.join(items) *)
Fixpoint join (sep : string) (items : list string) : string :=
  match items with
  | [] => EmptyString
  | [s] => s
  | s :: rest => (s ++ sep ++ join sep rest)%string
  end.

Definition min_len : Z := 10.
Definition max_len : Z := 300.
Definition max_diff : Z := 50.

(* the filtering conditions of process_data *)
Definition keep (x y : string) : bool :=
  let x_len := len x in
  let y_len := len y in
  let min_condition := (min_len <=? x_len)%Z && (min_len <=? y_len)%Z in
  let max_condition := (x_len <=? max_len)%Z && (y_len <=? max_len)%Z in
  let dif_condition := (Z.abs (x_len - y_len) <? max_diff)%Z in
  max_condition && min_condition && dif_condition.

Definition record (x y : string) : gmap string string :=
  {[ "x" := x; "y" := y ]}.

Section process_data.
(* str.strip and str.lower *)
Variables strip lower : string -> string.

(* for elem in orig_data: ... *)
Fixpoint loop (data_volumn : Z) (orig_data : list (gmap string string))
    (corpus : list string) (processed : list (gmap string string))
    (volumn_cnt : Z) : outcome (list string * list (gmap string string)) :=
  match orig_data with
  | [] => Done (corpus, processed)
  | elem :: rest =>
      match getitem elem "en" with
      | Failed e => Failed e
      | Done en =>
          match getitem elem "de" with
          | Failed e => Failed e
          | Done de =>
              let x := lower (strip en) in
              let y := lower (strip de) in
              if keep x y then
                let corpus := corpus ++ [x; y] in
                let processed := processed ++ [record x y] in
                let volumn_cnt := (volumn_cnt + 1)%Z in
                (* End condition *)
                if (volumn_cnt =? data_volumn)%Z then Done (corpus, processed)
                else loop data_volumn rest corpus processed volumn_cnt
              else loop data_volumn rest corpus processed volumn_cnt
          end
      end
  end.

(* returns the processed pairs, and writes the corpus once the loop is over *)
Definition process_data (orig_data : list (gmap string string)) (data_volumn : Z)
    : outcome (list (gmap string string) * list write) :=
  match loop data_volumn orig_data [] [] 0 with
  | Failed e => Failed e
  | Done (corpus, processed) =>
      Done (processed, [WriteText "data/corpus.txt" (join newline corpus)])
  end.
End process_data.

(* a bound of a slice: negative indices count from the end, and every index
   is clamped to the list *)
Definition slice_bound (n i : Z) : Z :=
  if (i <? 0)%Z then Z.max (n + i) 0 else Z.min i n.

(* l[start:stop] *)
Definition py_slice {A} (l : list A) (start stop : option Z) : list A :=
  let n := Z.of_nat (length l) in
  let lo := from_option (slice_bound n) 0%Z start in
  let hi := from_option (slice_bound n) n stop in
  take (Z.to_nat (hi - lo)) (drop (Z.to_nat lo) l).

(* one json file per split, in the order of the dictionary; each file exists
   once it is written, which is what the assertion checks *)
Definition save_data (data_obj : list (gmap string string)) : list write :=
  let train := py_slice data_obj None (Some (-5100)%Z) in
  let valid := py_slice data_obj (Some (-5100)%Z) (Some (-100)%Z) in
  let test := py_slice data_obj (Some (-100)%Z) None in
  let data_dict := zip ["train"; "valid"; "test"] [train; valid; test] in
  (fun '(key, val) => WriteJson ("data/" ++ key ++ ".json")%string val) <$> data_dict.

(* data_volumn in main *)
Definition data_volumn : Z := 55100.

End Setup.

(** ** Notions used to state the properties of [setup.py] *)

(* an element with both languages, and the pair process_data makes of it *)
Definition has_languages (elem : gmap string string) : Prop :=
  is_Some (elem !! "en") /\ is_Some (elem !! "de").

Definition normalised (strip lower : string -> string) (elem : gmap string string)
    : string * string :=
  (lower (strip (default EmptyString (elem !! "en"))),
   lower (strip (default EmptyString (elem !! "de")))).

(* the pairs of a corpus that pass the filter, in order *)
Definition accepted (strip lower : string -> string)
    (data : list (gmap string string)) : list (string * string) :=
  filter (fun p => Setup.keep p.1 p.2 = true) (normalised strip lower <$> data).

Definition lines_of (pairs : list (string * string)) : list string :=
  pairs ≫= fun p => [p.1; p.2].

Definition records_of (pairs : list (string * string)) : list (gmap string string) :=
  (fun p => Setup.record p.1 p.2) <$> pairs.

(* the pairs process_data selects from well-formed data *)
Definition selected (strip lower : string -> string) (data_volumn : Z)
    (data : list (gmap string string)) : list (string * string) :=
  if (1 <=? data_volumn)%Z
  then take (Z.to_nat data_volumn) (accepted strip lower data)
  else accepted strip lower data.

(* sample elements of a corpus *)
Definition greeting : gmap string string :=
  {[ "en" := "  Good morning  "; "de" := "Guten Morgen" ]}.

Definition too_short : gmap string string :=
  {[ "en" := "Hi"; "de" := "Hallo" ]}.

Definition english_only : gmap string string :=
  {[ "en" := "Good evening" ]}.

(* str.strip over spaces *)
Fixpoint lstrip (s : string) : string :=
  match s with
  | String a rest => if Ascii.eqb a (Ascii.ascii_of_nat 32) then lstrip rest else s
  | EmptyString => s
  end.

Definition sample_strip (s : string) : string :=
  String.rev (lstrip (String.rev (lstrip s))).

(** ** Notions used to state further properties *)

(* what the construction of each cell asks of the configuration *)
Definition encoder_cell_config (config : Config.t) : Prop :=
  1 <= Config.hidden_dim config
  /\ (Config.n_heads config | Config.hidden_dim config)
  /\ 1 <= Config.pff_dim config
  /\ dropout_ratio_ok config.

Definition decoder_cell_config (config : Config.t) : Prop :=
  1 <= Config.hidden_dim config
  /\ (Config.n_heads config * 2 | Config.hidden_dim config)
  /\ dropout_ratio_ok config.

Definition set_n_layers (config : Config.t) (n_layers : nat) : Config.t :=
  Config.Build (Config.vocab_size config) (Config.emb_dim config)
    (Config.hidden_dim config) (Config.pff_dim config) (Config.n_heads config)
    n_layers (Config.dropout_ratio config) (Config.pad_id config)
    (Config.device config).

(** * Properties *)

(** ** Rules for the library operations on well-sized operands *)

Lemma transpose_1_2 n l h t :
  transpose (Tensor n l h t) 1 2 = Ok (Tensor n h l (T1 (OTranspose 1 2) t)).
Proof. reflexivity. Qed.

Lemma size_last n l h t : size (Tensor n l h t) (-1) = Ok h.
Proof. reflexivity. Qed.

Lemma size_1 n l h t : size (Tensor n l h t) 1 = Ok l.
Proof. reflexivity. Qed.

Lemma broadcast_dim_same a : broadcast_dim a a = Ok a.
Proof. unfold broadcast_dim. by rewrite Nat.eqb_refl. Qed.

Lemma binary_same o n l h a b :
  binary o (Tensor n l h a) (Tensor n l h b) = Ok (Tensor n l h (T2 o a b)).
Proof.
  unfold binary. cbn [size0 size1 size2 node].
  by rewrite !broadcast_dim_same.
Qed.

Lemma add_same n l h a b :
  add (Tensor n l h a) (Tensor n l h b) = Ok (Tensor n l h (T2 OAdd a b)).
Proof. apply binary_same. Qed.

Lemma mul_same n l h a b :
  mul (Tensor n l h a) (Tensor n l h b) = Ok (Tensor n l h (T2 OMul a b)).
Proof. apply binary_same. Qed.

Lemma iadd_same n l h a b :
  iadd (Tensor n l h a) (Tensor n l h b) = Ok (Tensor n l h (T2 OAdd a b)).
Proof.
  unfold iadd. rewrite add_same. cbn [mbind result_bind size0 size1 size2].
  by rewrite !Nat.eqb_refl.
Qed.

Lemma LayerNorm_forward_ok d n l t :
  LayerNorm_forward (nn.LayerNorm.Build d) (Tensor n l d t)
  = Ok (Tensor n l d (T1 (OLayerNorm (nn.LayerNorm.Build d)) t)).
Proof.
  unfold LayerNorm_forward. cbn [size2 nn.LayerNorm.normalized_shape].
  by rewrite Nat.eqb_refl.
Qed.

Lemma Linear_forward_ok i o n l t :
  Linear_forward (nn.Linear.Build i o) (Tensor n l i t)
  = Ok (Tensor n l o (T1 (OLinear (nn.Linear.Build i o)) t)).
Proof.
  unfold Linear_forward. cbn [size2 nn.Linear.in_features].
  by rewrite Nat.eqb_refl.
Qed.

Ltac conv_unfold :=
  unfold Conv1d_forward, conv_length;
  cbn [size0 size1 size2 node nn.Conv1d.in_channels nn.Conv1d.out_channels
       nn.Conv1d.kernel_size nn.Conv1d.padding nn.Conv1d.groups];
  rewrite Nat.eqb_refl;
  match goal with
  | H : ?g <= ?o |- context [?g <=? ?o] =>
      rewrite (proj2 (Nat.leb_le g o) H)
  end;
  cbn [guard_or mbind result_bind].

(* kernel 3 with padding 1 keeps the length of a non-empty sequence *)
Lemma Conv1d_forward_pad1 i o g n l t :
  g <= o ->
  1 <= l ->
  Conv1d_forward (nn.Conv1d.Build i o 3 (PadN 1) g) (Tensor n i l t)
  = Ok (Tensor n o l (T1 (OConv1d (nn.Conv1d.Build i o 3 (PadN 1) g)) t)).
Proof.
  intros Hg Hl. conv_unfold.
  destruct (Nat.ltb_spec (l + 2 * 1) 3); [lia|].
  by replace (l + 2 * 1 - 3 + 1) with l by lia.
Qed.

Lemma Conv1d_forward_same i o k g n l t :
  g <= o ->
  1 <= l -> 1 <= k ->
  Conv1d_forward (nn.Conv1d.Build i o k PadSame g) (Tensor n i l t)
  = Ok (Tensor n o l (T1 (OConv1d (nn.Conv1d.Build i o k PadSame g)) t)).
Proof.
  intros Hg Hl Hk. conv_unfold.
  by destruct (Nat.ltb_spec (l + (k - 1)) k); [lia|].
Qed.

Lemma Conv1d_forward_pointwise i o g n l t :
  g <= o ->
  1 <= l ->
  Conv1d_forward (nn.Conv1d.Build i o 1 (PadN 0) g) (Tensor n i l t)
  = Ok (Tensor n o l (T1 (OConv1d (nn.Conv1d.Build i o 1 (PadN 0) g)) t)).
Proof.
  intros Hg Hl. conv_unfold.
  destruct (Nat.ltb_spec (l + 2 * 0) 1); [lia|].
  by replace (l + 2 * 0 - 1 + 1) with l by lia.
Qed.

Lemma SeparableConv1D_forward_ok i o k n l t :
  1 <= o ->
  1 <= l -> 1 <= k ->
  let m := SeparableConv1D.Build (nn.Conv1d.Build i i k PadSame i)
                                 (nn.Conv1d.Build i o 1 (PadN 0) 1) in
  SeparableConv1D.forward m (Tensor n i l t)
  = Ok (Tensor n o l
          (T1 (OConv1d (SeparableConv1D.point_wise m))
              (T1 (OConv1d (SeparableConv1D.depth_wise m)) t))).
Proof.
  intros Ho Hl Hk m. unfold SeparableConv1D.forward, m.
  cbn [SeparableConv1D.depth_wise SeparableConv1D.point_wise].
  rewrite Conv1d_forward_same by done. cbn [mbind result_bind].
  by rewrite Conv1d_forward_pointwise.
Qed.

Lemma split_sizes_double h : 1 <= h -> split_sizes (h * 2) h = Ok [h; h].
Proof.
  intros Hh. unfold split_sizes.
  destruct (Nat.eqb_spec h 0) as [->|_]; [lia|].
  replace ((h * 2 + h - 1) / h) with 2.
  2:{ apply (Nat.div_unique _ _ 2 (h - 1)); lia. }
  simpl. do 3 f_equal. lia.
Qed.

(* splitting a last dimension of even size by half of it gives two halves *)
Lemma split_halves n l h t :
  1 <= h ->
  split (Tensor n l (h * 2) t) (int_half (h * 2)) (-1)
  = Ok [Tensor n l h (T1 (OChunk 0 h 2) t); Tensor n l h (T1 (OChunk 1 h 2) t)].
Proof.
  intros Hh. unfold split, int_half. rewrite Nat.div_mul by lia.
  change (wrap_dim (-1)) with (Ok (A:=nat) 2).
  cbn [mbind result_bind dim_size size2].
  by rewrite split_sizes_double.
Qed.

(* padding the last dimension by the difference of two widths always gives
   the target width, also when the difference is negative *)
Lemma pad_to_width n l a w t v :
  F.pad (Tensor n l a t) [0; Z.of_nat w - Z.of_nat a; 0; 0; 0; 0]%Z Constant v
  = Ok (Tensor n l w
          (T1 (OPad [0; Z.of_nat w - Z.of_nat a; 0; 0; 0; 0]%Z Constant v) t)).
Proof.
  unfold F.pad, F.growth. cbn [mbind result_bind size0 size1 size2 node].
  replace (Z.of_nat n + (0 + 0))%Z with (Z.of_nat n) by lia.
  replace (Z.of_nat l + (0 + 0))%Z with (Z.of_nat l) by lia.
  replace (Z.of_nat a + (0 + (Z.of_nat w - Z.of_nat a)))%Z with (Z.of_nat w) by lia.
  rewrite !Nat2Z.id.
  replace ((0 <=? Z.of_nat n)%Z && (0 <=? Z.of_nat l)%Z && (0 <=? Z.of_nat w)%Z)
    with true; [done|].
  symmetry. rewrite !andb_true_iff, !Z.leb_le. lia.
Qed.

Lemma canonical_mask_ok v n s :
  key_padding_mask_ok v n s ->
  exists dims, canonical_mask v = Ok ((fun m => (dims, m)) <$> mask_term v)
               /\ (mask_term v = None \/ dims = [n; s]).
Proof.
  intros [->|(bits & -> & Hs)].
  - exists []. by split; [|left].
  - exists [n; s]. cbn. rewrite Hs. by split; [|right].
Qed.

Lemma MultiheadAttention_forward_ok e heads n l s tq tk tv kpm am :
  key_padding_mask_ok kpm n s ->
  attn_mask_ok am l s ->
  let m := nn.MultiheadAttention.Build e heads true in
  MultiheadAttention_forward m (Tensor n l e tq) (Tensor n s e tk) (Tensor n s e tv)
                             kpm am
  = Ok (Tensor n l e (TAttention m tq tk tv (mask_term kpm) (mask_term am))).
Proof.
  intros Hk Ha m. unfold MultiheadAttention_forward, m.
  cbn [nn.MultiheadAttention.batch_first nn.MultiheadAttention.embed_dim
       nn.MultiheadAttention.num_heads size0 size1 size2 node].
  destruct (canonical_mask_ok _ _ _ Hk) as (dk & -> & Hdk).
  destruct (canonical_mask_ok _ _ _ Ha) as (da & -> & Hda).
  cbn [mbind result_bind]. rewrite !Nat.eqb_refl. cbn [andb guard_or mbind result_bind].
  assert (Hgk : match (fun x => (dk, x)) <$> mask_term kpm with
                | Some (dims, _) => list_nat_eqb dims [n; s]
                | None => true
                end = true).
  { destruct Hdk as [->| ->]; [done|].
    destruct (mask_term kpm); [|done]. cbn. by apply bool_decide_eq_true. }
  assert (Hga : match (fun x => (da, x)) <$> mask_term am with
                | Some (dims, _) =>
                    list_nat_eqb dims [l; s] || list_nat_eqb dims [n * heads; l; s]
                | None => true
                end = true).
  { destruct Hda as [->| ->]; [done|].
    destruct (mask_term am); [|done]. cbn.
    apply orb_true_iff. left. by apply bool_decide_eq_true. }
  rewrite Hgk, Hga. cbn [guard_or mbind result_bind].
  by destruct (mask_term kpm), (mask_term am).
Qed.

(** ** Construction succeeds on a valid configuration *)

Lemma Dropout_init_ok p :
  Qle_bool (0 # 1) p && Qle_bool p (1 # 1) = true ->
  nn.Dropout.init p = Ok (nn.Dropout.Build p).
Proof. intros H. unfold nn.Dropout.init. by rewrite H. Qed.

Lemma MultiheadAttention_init_ok e heads bf :
  1 <= e -> (heads | e) ->
  nn.MultiheadAttention.init e heads bf = Ok (nn.MultiheadAttention.Build e heads bf).
Proof.
  intros He [k Hk]. unfold nn.MultiheadAttention.init.
  assert (heads <> 0) by (intros ->; lia).
  destruct (Nat.eqb_spec e 0); [lia|].
  destruct (Nat.eqb_spec heads 0); [lia|]. cbn [orb].
  subst e. rewrite Nat.div_mul by done. by rewrite Nat.eqb_refl.
Qed.

Lemma Conv1d_init_ungrouped i o k p :
  nn.Conv1d.init i o k p 1 = Ok (nn.Conv1d.Build i o k p 1).
Proof. unfold nn.Conv1d.init. by rewrite !Nat.mod_1_r. Qed.

Lemma GatedConvolution_init_ok h :
  1 <= h ->
  GatedConvolution.init h
  = Ok (GatedConvolution.Build (nn.Conv1d.Build h (h * 2) 3 (PadN 1) 1)).
Proof.
  intros Hh. unfold GatedConvolution.init, GatedConvolution.init_with.
  rewrite Conv1d_init_ungrouped. cbn [mbind result_bind].
  by destruct (Nat.eqb_spec (h * 3 + h * 2 * 3) 0); [lia|].
Qed.

Lemma Conv1d_init_depthwise i k p :
  1 <= i -> nn.Conv1d.init i i k p i = Ok (nn.Conv1d.Build i i k p i).
Proof.
  intros Hi. unfold nn.Conv1d.init.
  destruct (Nat.eqb_spec i 0); [lia|].
  by rewrite Nat.Div0.mod_same.
Qed.

Lemma SeparableConv1D_init_ok i o k :
  1 <= i ->
  SeparableConv1D.init i o k
  = Ok (SeparableConv1D.Build (nn.Conv1d.Build i i k PadSame i)
                              (nn.Conv1d.Build i o 1 (PadN 0) 1)).
Proof.
  intros Hi. unfold SeparableConv1D.init.
  by rewrite Conv1d_init_depthwise, Conv1d_init_ungrouped.
Qed.

Lemma valid_config_pff config : valid_config config -> 1 <= Config.pff_dim config.
Proof.
  intros (Hh & _ & [k Hk] & Hp & _).
  assert (2 <= Config.hidden_dim config) by lia.
  assert (1 <= Config.hidden_dim config / 2); [|lia].
  apply Nat.div_le_lower_bound; lia.
Qed.

Lemma even_heads_half h heads :
  1 <= h -> (heads * 2 | h) -> 1 <= h / 2.
Proof.
  intros Hh [k Hk]. apply Nat.div_le_lower_bound; lia.
Qed.

Lemma valid_config_half config :
  valid_config config -> 1 <= Config.hidden_dim config / 2.
Proof.
  intros (Hh & _ & Hn2 & _). apply (even_heads_half _ (Config.n_heads config)); [done|].
  by rewrite Nat.mul_comm.
Qed.

Lemma EncoderCell_init_ok config :
  valid_config config -> EncoderCell.init config = Ok (encoder_cell config).
Proof.
  intros Hv. pose proof (valid_config_pff _ Hv) as Hp.
  destruct Hv as (Hh & Hn & _ & _ & Hd).
  unfold EncoderCell.init.
  rewrite GatedConvolution_init_ok, !Conv1d_init_ungrouped by done.
  cbn [mbind result_bind].
  rewrite MultiheadAttention_init_ok by done. cbn [mbind result_bind].
  rewrite !Dropout_init_ok by done. cbn [mbind result_bind].
  rewrite SeparableConv1D_init_ok by done. reflexivity.
Qed.

(** ** The cells on well-sized inputs *)

(* runs a forward pass through the rules above *)
Ltac run :=
  repeat first
    [ progress cbn [mbind result_bind getitem lookup list_lookup replicate
                    Sequential_forward layer_forward Dropout_forward unary
                    torch.sigmoid unpack_pair size0 size1 size2 node
                    EncoderCell.pad_id EncoderCell.glu EncoderCell.attention
                    EncoderCell.mid_layer_norm EncoderCell.layer_norms
                    EncoderCell.left_net EncoderCell.right_net
                    EncoderCell.sep_conv EncoderCell.pff GatedConvolution.conv
                    DecoderCell.pad_id DecoderCell.layer_norms DecoderCell.mid_layer_norm
                    DecoderCell.left_attn DecoderCell.right_attn DecoderCell.left_net
                    DecoderCell.right_net DecoderCell.sep_conv DecoderCell.self_attn
                    DecoderCell.src_attn DecoderCell.pff]
    | progress unfold torch.sigmoid, Dropout_forward, unary
    | rewrite transpose_1_2
    | rewrite size_last
    | rewrite add_same
    | rewrite iadd_same
    | rewrite mul_same
    | rewrite LayerNorm_forward_ok
    | rewrite Linear_forward_ok
    | rewrite pad_to_width
    | rewrite Conv1d_forward_pad1 by (done || lia)
    | rewrite SeparableConv1D_forward_ok by (done || lia)
    | rewrite split_halves by done
    | rewrite MultiheadAttention_forward_ok by (done || by left) ].

Lemma GatedConvolution_forward_ok h n l t :
  1 <= h -> 1 <= l ->
  let m := GatedConvolution.Build (nn.Conv1d.Build h (h * 2) 3 (PadN 1) 1) in
  let c := T1 (OTranspose 1 2) (T1 (OConv1d (GatedConvolution.conv m)) (T1 (OTranspose 1 2) t)) in
  GatedConvolution.forward m (Tensor n l h t)
  = Ok (Tensor n l h (T2 OMul (T1 (OChunk 0 h 2) c) (T1 OSigmoid (T1 (OChunk 1 h 2) c)))).
Proof.
  intros Hh Hl m c. unfold GatedConvolution.forward, m, c. run. reflexivity.
Qed.


Ltac pads_split :=
  repeat match goal with
         | H : _ ∈ _ ++ _ |- _ => apply elem_of_app in H as [H|H]
         | H : _ ∈ [] |- _ => by apply elem_of_nil in H
         | H : _ ∈ _ :: _ |- _ => apply elem_of_cons in H as [H|H]
         end.

Ltac pads_find :=
  solve [ assumption
        | apply list_elem_of_here
        | apply list_elem_of_further; pads_find
        | apply elem_of_app; left; pads_find
        | apply elem_of_app; right; pads_find ].

Lemma EncoderCell_forward_ok config n l t e_mask :
  valid_config config -> 1 <= l -> key_padding_mask_ok e_mask n l ->
  let h := Config.hidden_dim config in
  exists out,
    EncoderCell.forward (encoder_cell config) (Tensor n l h t) e_mask = Ok out
    /\ shape out = (n, l, h)
    /\ forall c, c ∈ pads_in (node out) <->
         c ∈ pads_in t
         \/ c = pad_call (h / 2) (Config.pff_dim config) (Config.pad_id config)
         \/ c = pad_call (h / 2) h (Config.pad_id config).
Proof.
  intros Hv Hl Hm h. pose proof (valid_config_pff _ Hv) as Hp.
  pose proof (valid_config_half _ Hv) as Hhalf.
  destruct Hv as (Hh & Hn & _ & _ & Hd).
  unfold EncoderCell.forward, encoder_cell. run.
  rewrite GatedConvolution_forward_ok by done. run.
  eexists. split; [reflexivity|]. split; [reflexivity|].
  intros c. unfold pad_call. fold h.
  assert (Hk : mask_term e_mask = None \/ exists b, mask_term e_mask = Some (MBool b)).
  { destruct Hm as [->|(b & -> & _)]; [by left|right; by eexists]. }
  cbn [node pads_in app mask_term].
  destruct Hk as [->|(b & ->)]; cbn [app]; (split; [intros H; pads_split; subst; auto|]);
    (intros [H|[->| ->]]; pads_find).
Qed.

Lemma DecoderCell_init_ok config :
  valid_config config -> DecoderCell.init config = Ok (decoder_cell config).
Proof.
  intros (Hh & Hn & Hn2 & _ & Hd). rewrite Nat.mul_comm in Hn2.
  unfold DecoderCell.init.
  rewrite Dropout_init_ok by done. cbn [mbind result_bind].
  rewrite !MultiheadAttention_init_ok by done. cbn [mbind result_bind].
  rewrite !SeparableConv1D_init_ok by lia. reflexivity.
Qed.

Lemma DecoderCell_forward_ok config n l s t tm e_mask d_mask :
  valid_config config -> 1 <= l ->
  key_padding_mask_ok e_mask n s -> attn_mask_ok d_mask l l ->
  let h := Config.hidden_dim config in
  exists out,
    DecoderCell.forward (decoder_cell config) (Tensor n l h t) (Tensor n s h tm)
                        e_mask d_mask = Ok out
    /\ shape out = (n, l, h)
    /\ forall c, c ∈ pads_in (node out) <->
         c ∈ pads_in t \/ c ∈ pads_in tm
         \/ c = pad_call (h / 2) (h * 2) (Config.pad_id config).
Proof.
  intros Hv Hl Hm Hd h.
  pose proof (valid_config_half _ Hv) as Hhalf.
  destruct Hv as (Hh & _).
  unfold DecoderCell.forward, decoder_cell. run.
  eexists. split; [reflexivity|]. split; [reflexivity|].
  intros c. unfold pad_call. fold h.
  assert (Hk : mask_term e_mask = None \/ exists b, mask_term e_mask = Some (MBool b)).
  { destruct Hm as [->|(b & -> & _)]; [by left|right; by eexists]. }
  assert (Hk' : mask_term d_mask = None \/ exists b, mask_term d_mask = Some (MBool b)).
  { destruct Hd as [->|(b & -> & _)]; [by left|right; by eexists]. }
  cbn [node pads_in app mask_term].
  destruct Hk as [->|(b & ->)], Hk' as [->|(b' & ->)]; cbn [app];
    (split; [intros H; pads_split; subst; auto|]);
    (intros [H|[H| ->]]; pads_find).
Qed.

(** * The claims *)

(** ** The stubs of EvolvedTransformer *)

Lemma getattr_pad_mask self :
  EvolvedTransformer.getattr self "pad_mask" = Ok (AMethod "pad_mask").
Proof. reflexivity. Qed.

(** C10. Whatever the input pair, [EvolvedTransformer.forward] raises at its
    first statement: [shift_y] returns [None], unpacking [None] into
    [y, label] is a [TypeError], and nothing after the unpacking (the masks,
    the encoder, the decoder, the generator, a loss) is run, so [forward]
    never returns a result. *)
Theorem forward_raises_at_unpacking (self : EvolvedTransformer.t) (x y : ndarray Z) :
  EvolvedTransformer.shift_y y = VNone
  /\ unpack2 (EvolvedTransformer.shift_y y) = Raise TypeError
  /\ (forall rest : value * value -> result Out.t,
        unpack2 (EvolvedTransformer.shift_y y) ≫= rest = Raise TypeError)
  /\ EvolvedTransformer.forward self x y = Raise TypeError
  /\ ~ returns (EvolvedTransformer.forward self x y).
Proof.
  repeat split; try reflexivity.
  intros [out Hout]. discriminate Hout.
Qed.

(** C1. On the scenario of the specification (a valid pair of shape (2, 6)
    and (2, 5) for a model that constructs) [EvolvedTransformer.forward]
    returns no output at all: it raises [TypeError], so there are neither
    logits of shape (2, 4, 37) nor a loss. *)
Theorem forward_scenario_raises :
  exists model,
    EvolvedTransformer.init scenario_config = Ok model
    /\ nd_shape scenario_source = [2; 6]
    /\ nd_shape scenario_target = [2; 5]
    /\ EvolvedTransformer.forward model scenario_source scenario_target
       = Raise TypeError.
Proof.
  eexists. split; [vm_compute; reflexivity|].
  repeat split; reflexivity.
Qed.

(** C2. [shift_y] returns [None] for the target [[5,6,7,8,9]], not the pair
    of the target without its last and without its first position. *)
Theorem shift_y_returns_none :
  EvolvedTransformer.shift_y (of_rows [[5; 6; 7; 8; 9]]%Z) = VNone
  /\ EvolvedTransformer.shift_y (of_rows [[5; 6; 7; 8; 9]]%Z)
     <> VTuple [VLong (of_rows [[5; 6; 7; 8]]%Z); VLong (of_rows [[6; 7; 8; 9]]%Z)].
Proof. split; [reflexivity|discriminate]. Qed.

(** C3. [pad_mask] compares its argument with the bound method
    [self.pad_mask], not with [self.pad_id]: for every tensor of ids the
    result is the Python boolean [False], never the elementwise mask of the
    positions that hold [pad_id]. *)
Theorem pad_mask_is_false (self : EvolvedTransformer.t) (x : ndarray Z) :
  EvolvedTransformer.pad_mask self x = Ok (VBool false)
  /\ EvolvedTransformer.pad_mask self x
     <> Ok (Tensor_eq x (AInt (EvolvedTransformer.pad_id self))).
Proof. split; [reflexivity|discriminate]. Qed.

(** C4. [dec_mask] never returns a mask: it sets [mask = None] and then
    calls [mask.to], an [AttributeError]; so it does on the decoder input
    [[5,6,7,8]] of length 4, where a 4-by-4 matrix is expected. *)
Theorem dec_mask_raises (self : EvolvedTransformer.t) :
  EvolvedTransformer.dec_mask self (VLong (of_rows [[5; 6; 7; 8]]%Z))
  = Raise AttributeError
  /\ forall x, ~ returns (EvolvedTransformer.dec_mask self x).
Proof.
  split; [reflexivity|].
  intros x [m Hm]. unfold EvolvedTransformer.dec_mask in Hm.
  destruct (value_size x 1); discriminate Hm.
Qed.

(** ** The encoder stack *)

Lemma EncoderCell_call_keyword cell x e_mask :
  EncoderCell_call cell [VFloat x] [("src_key_padding_mask", e_mask)]
  = Raise TypeError.
Proof. reflexivity. Qed.

(* the decoder hands its masks over by position, which binds *)
Lemma DecoderCell_call_binds x memory e_mask d_mask :
  returns (bind_arguments ["x"; "memory"; "e_mask"; "d_mask"]
             [VFloat x; VFloat memory; e_mask; d_mask] []).
Proof. eexists. vm_compute. reflexivity. Qed.

(** C5. [EvolvedEncoder.forward] hands the mask to its first cell under the
    keyword [src_key_padding_mask], which [EncoderCell.forward(self, x,
    e_mask)] does not have: whenever the stack has a cell and the embeddings
    return, the call raises [TypeError] and no cell is applied. *)
Theorem encoder_forward_raises_on_keyword
    (self : EvolvedEncoder.t) (x e_mask : value) :
  EvolvedEncoder.cells self <> [] ->
  returns (Embeddings.forward (EvolvedEncoder.embeddings self) x) ->
  EvolvedEncoder.forward self x e_mask = Raise TypeError.
Proof.
  intros Hcells [embedded Hemb]. unfold EvolvedEncoder.forward.
  rewrite Hemb. cbn [mbind result_bind].
  destruct (EvolvedEncoder.cells self) as [|cell rest]; [done|].
  cbn [EvolvedEncoder.loop]. by rewrite EncoderCell_call_keyword.
Qed.

Lemma encoder_forward_raises_on_keyword_witness :
  EvolvedEncoder.init scenario_config = Ok scenario_encoder
  /\ EvolvedEncoder.forward scenario_encoder (VLong scenario_source) VNone
     = Raise TypeError.
Proof.
  split; [reflexivity|].
  apply (encoder_forward_raises_on_keyword scenario_encoder).
  - discriminate.
  - eexists. vm_compute. reflexivity.
Defined.

(** ** Embeddings *)

Lemma as_vector_of_items {A} (r : list A) : as_vector (Array (map Item r)) = Some r.
Proof.
  unfold as_vector. induction r as [|a r IH]; [done|].
  cbn. cbn in IH. by rewrite IH.
Qed.

Lemma as_matrix_of_rows {A} (rows : list (list A)) : as_matrix (of_rows rows) = Some rows.
Proof.
  unfold as_matrix, of_rows. induction rows as [|r rows IH]; [done|].
  cbn [map mapM]. rewrite as_vector_of_items. cbn. cbn in IH. by rewrite IH.
Qed.

Lemma broadcast_dim_one a : broadcast_dim a 1 = Ok a.
Proof.
  unfold broadcast_dim. destruct (Nat.eqb_spec a 1) as [->|]; [done|].
  by destruct (a =? 1).
Qed.

(** C6, as amended. [Embeddings.forward] applies dropout twice: once inside
    [PositionalEncoding.forward], right after the positional table is added,
    and once at the end, after the optional projection.  On token ids of
    shape (batch, seq_len) with seq_len at most 512 and every id below
    vocab_size the output is
    dropout(fc(dropout(lookup * sqrt(emb_dim) + pe))) when emb_dim differs
    from hidden_dim and dropout(dropout(lookup * sqrt(emb_dim) + pe))
    otherwise, of shape (batch, seq_len, hidden_dim). *)
Theorem Embeddings_forward_applies_dropout_twice
    (config : Config.t) (self : Embeddings.t) (rows : list (list Z)) :
  Embeddings.init config = Ok self ->
  rectangular rows = true ->
  forallb (forallb (fun i =>
     (0 <=? i)%Z && (i <? Z.of_nat (Config.vocab_size config))%Z)) rows = true ->
  length (hd [] rows) <= 512 ->
  exists out,
    Embeddings.forward self (VLong (of_rows rows)) = Ok out
    /\ shape out = (length rows, length (hd [] rows), Config.hidden_dim config)
    /\ node out =
         T1 (config_dropout config)
            (projected config
               (T1 (config_dropout config) (positioned config rows)))
    /\ dropouts_in (node out) = 2.
Proof.
  intros Hinit Hrect Hids Hlen.
  unfold Embeddings.init, PositionalEncoding.init, PositionalEncoding.init_with in Hinit.
  destruct (nn.Dropout.init (Config.dropout_ratio config)) as [d|] eqn:Hd;
    [|discriminate Hinit].
  unfold nn.Dropout.init in Hd.
  destruct (Qle_bool _ _ && Qle_bool _ _); [|discriminate Hd].
  injection Hd as <-. cbn [mbind result_bind] in Hinit.
  destruct (guard_or ZeroDivisionError _); [|discriminate Hinit].
  cbn [mbind result_bind] in Hinit.
  destruct (guard_or RuntimeError _); [|discriminate Hinit].
  cbn [mbind result_bind] in Hinit. injection Hinit as <-.
  unfold Embeddings.forward, Embedding_forward.
  cbn [as_long mbind result_bind Embeddings.tok_emb Embeddings.scale
       Embeddings.pos_emb Embeddings.dropout Embeddings.use_fc_layer Embeddings.fc
       nn.Embedding.num_embeddings nn.Embedding.embedding_dim].
  rewrite as_matrix_of_rows, Hrect, Hids. cbn [guard_or mbind result_bind].
  unfold PositionalEncoding.forward, unary.
  cbn [size0 size1 size2 node PositionalEncoding.pe PositionalEncoding.dropout].
  rewrite size_1. cbn [mbind result_bind]. rewrite Nat.min_l by done.
  unfold add, binary. cbn [size0 size1 size2 node].
  rewrite broadcast_dim_one, !broadcast_dim_same. cbn [mbind result_bind].
  unfold Dropout_forward, unary, projected, config_dropout, positioned.
  cbn [size0 size1 size2 node].
  destruct (Nat.eqb_spec (Config.emb_dim config) (Config.hidden_dim config))
    as [Heq|Hne]; cbn [negb].
  - eexists. split; [reflexivity|]. rewrite <- Heq. by repeat split.
  - cbn [mbind result_bind]. rewrite Linear_forward_ok.
    cbn [mbind result_bind size0 size1 size2 node].
    eexists. split; [reflexivity|]. by repeat split.
Qed.

Lemma Embeddings_forward_applies_dropout_twice_witness :
  exists out,
    Embeddings.forward scenario_embeddings (VLong (of_rows [[5; 6; 7; 8]]%Z)) = Ok out
    /\ shape out = (1, 4, 16)
    /\ dropouts_in (node out) = 2.
Proof.
  destruct (Embeddings_forward_applies_dropout_twice
              scenario_config scenario_embeddings [[5; 6; 7; 8]]%Z)
    as (out & Hout & Hshape & _ & Hcount).
  - reflexivity.
  - reflexivity.
  - reflexivity.
  - simpl. lia.
  - exists out. by repeat split.
Defined.

(** C6, as stated, fails: on the ids [[5,6,7,8]] the output has gone through
    two dropout layers, not one, and is not
    dropout(lookup * sqrt(emb_dim) + pe) (emb_dim = hidden_dim), nor
    dropout(fc(lookup * sqrt(emb_dim) + pe)) (emb_dim <> hidden_dim). *)
Lemma Embeddings_forward_not_single_dropout :
  (exists self out,
     Embeddings.init scenario_config = Ok self
     /\ Embeddings.forward self (VLong (of_rows [[5; 6; 7; 8]]%Z)) = Ok out
     /\ dropouts_in (node out) <> 1
     /\ node out <> single_dropout_output scenario_config [[5; 6; 7; 8]]%Z)
  /\ (exists self out,
        Embeddings.init projecting_config = Ok self
        /\ Embeddings.forward self (VLong (of_rows [[5; 6; 7; 8]]%Z)) = Ok out
        /\ dropouts_in (node out) <> 1
        /\ node out <> single_dropout_output projecting_config [[5; 6; 7; 8]]%Z).
Proof.
  split; eexists _, _;
    (split; [vm_compute; reflexivity|]);
    (split; [vm_compute; reflexivity|]);
    (split; [cbn; lia | discriminate]).
Qed.
(** ** GatedConvolution *)

(** C8, as amended. For every input of shape (batch, seq_len, hidden_dim)
    with seq_len >= 1 (and hidden_dim >= 1), [GatedConvolution.forward]
    returns a tensor of the same shape: the kernel-3, padding-1 convolution
    gives hidden_dim * 2 channels at the same length, its last dimension is
    split into two halves of hidden_dim channels, (value, gate), and the
    result is value * sigmoid(gate). *)
Theorem GatedConvolution_forward_gates_halves (hidden_dim : nat) (x : tensor) :
  1 <= hidden_dim ->
  1 <= size1 x ->
  size2 x = hidden_dim ->
  exists self convoluted val gate out,
    GatedConvolution.init hidden_dim = Ok self
    /\ GatedConvolution.conv self
       = nn.Conv1d.Build hidden_dim (hidden_dim * 2) 3 (PadN 1) 1
    /\ (xt ← transpose x 1 2;
        c ← Conv1d_forward (GatedConvolution.conv self) xt;
        transpose c 1 2) = Ok convoluted
    /\ shape convoluted = (size0 x, size1 x, hidden_dim * 2)
    /\ split convoluted hidden_dim (-1) = Ok [val; gate]
    /\ shape val = shape x
    /\ shape gate = shape x
    /\ mul val (torch.sigmoid gate) = Ok out
    /\ GatedConvolution.forward self x = Ok out
    /\ shape out = shape x.
Proof.
  intros Hh Hl Hx. destruct x as [n l c t]. cbn in Hl, Hx. subst c.
  exists (GatedConvolution.Build
            (nn.Conv1d.Build hidden_dim (hidden_dim * 2) 3 (PadN 1) 1)).
  eexists _, _, _, _.
  split.
  { by apply GatedConvolution_init_ok. }
  split; [reflexivity|].
  cbn [GatedConvolution.conv]. split.
  { rewrite transpose_1_2. cbn [mbind result_bind].
    rewrite Conv1d_forward_pad1 by (done || lia). cbn [mbind result_bind].
    apply transpose_1_2. }
  split; [reflexivity|]. split.
  { pose proof (split_halves n l hidden_dim) as Hs.
    unfold int_half in Hs. rewrite Nat.div_mul in Hs by lia.
    by apply Hs. }
  split; [reflexivity|]. split; [reflexivity|]. split.
  { unfold torch.sigmoid, unary. cbn [size0 size1 size2 node]. apply mul_same. }
  split; [|reflexivity].
  by rewrite GatedConvolution_forward_ok.
Qed.

Lemma GatedConvolution_forward_gates_halves_witness :
  exists self out,
    GatedConvolution.init 4 = Ok self
    /\ GatedConvolution.forward self (Tensor 2 6 4 (TInput "x")) = Ok out
    /\ shape out = (2, 6, 4).
Proof.
  destruct (GatedConvolution_forward_gates_halves 4 (Tensor 2 6 4 (TInput "x")))
    as (self & _ & _ & _ & out & Hinit & _ & _ & _ & _ & _ & _ & _ & Hout & Hshape).
  - lia.
  - simpl. lia.
  - reflexivity.
  - by exists self, out.
Defined.

(** C8, as stated, fails: on an input of shape (2, 0, 4), whose sequence is
    empty, the padded length 2 is shorter than the kernel of 3, the
    convolution raises [RuntimeError], and [GatedConvolution.forward] returns
    no tensor. *)
Lemma GatedConvolution_forward_empty_sequence :
  exists self,
    GatedConvolution.init 4 = Ok self
    /\ shape (Tensor 2 0 4 (TInput "x")) = (2, 0, 4)
    /\ GatedConvolution.forward self (Tensor 2 0 4 (TInput "x")) = Raise RuntimeError
    /\ ~ returns (GatedConvolution.forward self (Tensor 2 0 4 (TInput "x"))).
Proof.
  eexists. split; [reflexivity|]. split; [reflexivity|].
  split; [reflexivity|]. intros [out Hout]. discriminate Hout.
Qed.

(** ** The cells *)

(** C7. Both cells pad with a constant fill equal to the configured pad_id.
    On every input of a valid configuration the pad calls in the output of
    [EncoderCell.forward] are those already in its input plus the two of the
    cell: the right branch widened from hidden_dim / 2 to pff_dim, and block
    3 widened from hidden_dim / 2 to hidden_dim, each in mode constant with
    value pad_id.  For [DecoderCell.forward] there is one: the right branch
    widened from hidden_dim / 2 to hidden_dim * 2, in mode constant with
    value pad_id. *)
Theorem cells_pad_with_pad_id (config : Config.t) (x memory : tensor)
    (src_mask e_mask d_mask : value) :
  valid_config config ->
  1 <= size1 x ->
  size2 x = Config.hidden_dim config ->
  size0 memory = size0 x ->
  size2 memory = Config.hidden_dim config ->
  key_padding_mask_ok src_mask (size0 x) (size1 x) ->
  key_padding_mask_ok e_mask (size0 x) (size1 memory) ->
  attn_mask_ok d_mask (size1 x) (size1 x) ->
  exists enc dec enc_out dec_out,
    EncoderCell.init config = Ok enc
    /\ DecoderCell.init config = Ok dec
    /\ EncoderCell.pad_id enc = Config.pad_id config
    /\ DecoderCell.pad_id dec = Config.pad_id config
    /\ EncoderCell.forward enc x src_mask = Ok enc_out
    /\ DecoderCell.forward dec x memory e_mask d_mask = Ok dec_out
    /\ (forall c, c ∈ pads_in (node enc_out) <->
          c ∈ pads_in (node x)
          \/ c = pad_call (Config.hidden_dim config / 2) (Config.pff_dim config)
                          (Config.pad_id config)
          \/ c = pad_call (Config.hidden_dim config / 2) (Config.hidden_dim config)
                          (Config.pad_id config))
    /\ (forall c, c ∈ pads_in (node dec_out) <->
          c ∈ pads_in (node x) \/ c ∈ pads_in (node memory)
          \/ c = pad_call (Config.hidden_dim config / 2)
                          (Config.hidden_dim config * 2) (Config.pad_id config)).
Proof.
  intros Hv Hl Hx Hm0 Hm2 Hsrc He Hd.
  destruct x as [n l c t], memory as [n' s c' tm].
  cbn [size0 size1 size2 node shape] in *. subst c c' n'.
  destruct (EncoderCell_forward_ok config n l t src_mask Hv Hl Hsrc)
    as (eo & Heo & _ & Hpe).
  destruct (DecoderCell_forward_ok config n l s t tm e_mask d_mask Hv Hl He Hd)
    as (do & Hdo & _ & Hpd).
  exists (encoder_cell config), (decoder_cell config), eo, do.
  rewrite EncoderCell_init_ok, DecoderCell_init_ok by done.
  by repeat split; try apply Hpe; try apply Hpd.
Qed.

Lemma cells_pad_with_pad_id_witness :
  exists enc dec enc_out dec_out,
    EncoderCell.init scenario_config = Ok enc
    /\ DecoderCell.init scenario_config = Ok dec
    /\ EncoderCell.forward enc (Tensor 2 6 16 (TInput "x")) VNone = Ok enc_out
    /\ DecoderCell.forward dec (Tensor 2 6 16 (TInput "x"))
         (Tensor 2 6 16 (TInput "memory")) VNone VNone = Ok dec_out
    /\ pad_call 8 32 0 ∈ pads_in (node enc_out)
    /\ pad_call 8 16 0 ∈ pads_in (node enc_out)
    /\ pad_call 8 32 0 ∈ pads_in (node dec_out).
Proof.
  destruct (cells_pad_with_pad_id scenario_config (Tensor 2 6 16 (TInput "x"))
              (Tensor 2 6 16 (TInput "memory")) VNone VNone VNone)
    as (enc & dec & eo & do & Hei & Hdi & _ & _ & He & Hd & Hpe & Hpd).
  - repeat split; [simpl; lia | by exists 4 | by exists 2 | vm_compute; lia].
  - simpl; lia.
  - reflexivity.
  - reflexivity.
  - reflexivity.
  - by left.
  - by left.
  - by left.
  - exists enc, dec, eo, do.
    repeat split; try done.
    + apply Hpe. right. by left.
    + apply Hpe. right. by right.
    + apply Hpd. right. by right.
Defined.

(** C9, as amended. For every configuration in which n_heads and
    2 * n_heads both divide hidden_dim (and pff_dim >= hidden_dim / 2), and
    every input of shape (batch, seq_len, hidden_dim) with a non-empty
    sequence, [EncoderCell.forward] and [DecoderCell.forward] each return a
    tensor of the shape of their input. *)
Theorem cells_preserve_shape (config : Config.t) (x memory : tensor)
    (src_mask e_mask d_mask : value) :
  valid_config config ->
  1 <= size1 x ->
  size2 x = Config.hidden_dim config ->
  size0 memory = size0 x ->
  size2 memory = Config.hidden_dim config ->
  key_padding_mask_ok src_mask (size0 x) (size1 x) ->
  key_padding_mask_ok e_mask (size0 x) (size1 memory) ->
  attn_mask_ok d_mask (size1 x) (size1 x) ->
  exists enc dec enc_out dec_out,
    EncoderCell.init config = Ok enc
    /\ DecoderCell.init config = Ok dec
    /\ EncoderCell.forward enc x src_mask = Ok enc_out
    /\ shape enc_out = shape x
    /\ DecoderCell.forward dec x memory e_mask d_mask = Ok dec_out
    /\ shape dec_out = shape x.
Proof.
  intros Hv Hl Hx Hm0 Hm2 Hsrc He Hd.
  destruct x as [n l c t], memory as [n' s c' tm].
  cbn [size0 size1 size2 node shape] in *. subst c c' n'.
  destruct (EncoderCell_forward_ok config n l t src_mask Hv Hl Hsrc)
    as (eo & Heo & Hse & _).
  destruct (DecoderCell_forward_ok config n l s t tm e_mask d_mask Hv Hl He Hd)
    as (do & Hdo & Hsd & _).
  exists (encoder_cell config), (decoder_cell config), eo, do.
  rewrite EncoderCell_init_ok, DecoderCell_init_ok by done.
  by repeat split.
Qed.

Lemma cells_preserve_shape_witness :
  exists enc dec enc_out dec_out,
    EncoderCell.init scenario_config = Ok enc
    /\ DecoderCell.init scenario_config = Ok dec
    /\ EncoderCell.forward enc (Tensor 2 6 16 (TInput "x")) VNone = Ok enc_out
    /\ shape enc_out = (2, 6, 16)
    /\ DecoderCell.forward dec (Tensor 2 4 16 (TInput "y"))
         (Tensor 2 6 16 (TInput "memory")) VNone VNone = Ok dec_out
    /\ shape dec_out = (2, 4, 16).
Proof.
  destruct (cells_preserve_shape scenario_config (Tensor 2 6 16 (TInput "x"))
              (Tensor 2 6 16 (TInput "memory")) VNone VNone VNone)
    as (enc & dec & eo & _ & Hei & Hdi & He & Hse & _).
  - repeat split; [simpl; lia | by exists 4 | by exists 2 | vm_compute; lia].
  - simpl; lia.
  - reflexivity.
  - reflexivity.
  - reflexivity.
  - by left.
  - by left.
  - by left.
  - destruct (cells_preserve_shape scenario_config (Tensor 2 4 16 (TInput "y"))
                (Tensor 2 6 16 (TInput "memory")) VNone VNone VNone)
      as (enc' & dec' & _ & do & _ & Hdi' & _ & _ & Hd & Hsd).
    + repeat split; [simpl; lia | by exists 4 | by exists 2 | vm_compute; lia].
    + simpl; lia.
    + reflexivity.
    + reflexivity.
    + reflexivity.
    + by left.
    + by left.
    + by left.
    + exists enc, dec', eo, do. by repeat split.
Defined.

(** C9, as stated, fails: hidden_dim = 64 with n_heads = 64 and
    pff_dim = 128 meets the stated condition (64 divides 64 and 128, and
    128 >= 32), the encoder cell is built, but the decoder cell is not: its
    attention layers with 2 * n_heads = 128 heads are refused, so
    [DecoderCell.forward] returns nothing for this configuration. *)
Lemma decoder_cell_refuses_claimed_config :
  claimed_config wide_heads_config
  /\ returns (EncoderCell.init wide_heads_config)
  /\ DecoderCell.init wide_heads_config = Raise AssertionError
  /\ ~ returns (DecoderCell.init wide_heads_config).
Proof.
  split; [|split; [|split]].
  - repeat split; [by exists 1 | by exists 2 | vm_compute; lia].
  - eexists. vm_compute. reflexivity.
  - vm_compute. reflexivity.
  - intros [cell Hcell]. vm_compute in Hcell. discriminate Hcell.
Qed.

(** * Further properties of the model code *)

(** ** PositionalEncoding and Embeddings *)

Lemma PositionalEncoding_init_inv config self :
  PositionalEncoding.init config = Ok self ->
  self = PositionalEncoding.Build (nn.Dropout.Build (Config.dropout_ratio config))
           (Tensor 1 512 (Config.emb_dim config) (TBuffer "pe")).
Proof.
  unfold PositionalEncoding.init, PositionalEncoding.init_with, nn.Dropout.init.
  destruct (Qle_bool _ _ && Qle_bool _ _); [|discriminate].
  cbn [mbind result_bind]. destruct (guard_or ZeroDivisionError _); [|discriminate].
  cbn [mbind result_bind]. destruct (guard_or RuntimeError _); [|discriminate].
  cbn [mbind result_bind]. by intros [= <-].
Qed.

Lemma Embeddings_init_inv config self :
  Embeddings.init config = Ok self ->
  self = Embeddings.Build
           (nn.Embedding.Build (Config.vocab_size config) (Config.emb_dim config))
           (Sqrt (Config.emb_dim config))
           (PositionalEncoding.Build (nn.Dropout.Build (Config.dropout_ratio config))
              (Tensor 1 512 (Config.emb_dim config) (TBuffer "pe")))
           (nn.Dropout.Build (Config.dropout_ratio config))
           (negb (Config.emb_dim config =? Config.hidden_dim config))
           (if negb (Config.emb_dim config =? Config.hidden_dim config)
            then Some (nn.Linear.Build (Config.emb_dim config) (Config.hidden_dim config))
            else None).
Proof.
  unfold Embeddings.init.
  destruct (PositionalEncoding.init config) as [pos|] eqn:Hpos; [|discriminate].
  apply PositionalEncoding_init_inv in Hpos as ->.
  cbn [mbind result_bind]. unfold nn.Dropout.init.
  destruct (Qle_bool _ _ && Qle_bool _ _); [|discriminate].
  cbn [mbind result_bind]. by intros [= <-].
Qed.

Lemma broadcast_dim_mismatch a b :
  a <> b -> a <> 1 -> b <> 1 -> broadcast_dim a b = Raise RuntimeError.
Proof.
  intros Hab Ha Hb. unfold broadcast_dim.
  destruct (Nat.eqb_spec a b); [done|].
  destruct (Nat.eqb_spec a 1); [done|].
  by destruct (Nat.eqb_spec b 1).
Qed.

(** X1. A [PositionalEncoding] built by [init] (table of 512 rows) returns,
    on an input of emb_dim channels and at most 512 positions, a tensor of
    the input's shape: the first seq_len rows of the table are added and one
    dropout is applied. *)
Theorem PositionalEncoding_forward_within_table
    (config : Config.t) (self : PositionalEncoding.t) (x : tensor) :
  PositionalEncoding.init config = Ok self ->
  size2 x = Config.emb_dim config ->
  size1 x <= 512 ->
  exists out,
    PositionalEncoding.forward self x = Ok out
    /\ shape out = shape x
    /\ node out = T1 (config_dropout config)
                     (T2 OAdd (node x) (T1 (OSlice1 (size1 x)) (TBuffer "pe"))).
Proof.
  intros Hinit Hx Hl. apply PositionalEncoding_init_inv in Hinit as ->.
  destruct x as [n l c t]. cbn [size0 size1 size2 node shape] in *. subst c.
  unfold PositionalEncoding.forward.
  cbn [PositionalEncoding.pe PositionalEncoding.dropout size0 size1 size2 node].
  rewrite size_1. cbn [mbind result_bind]. rewrite Nat.min_l by done.
  unfold add, binary. cbn [size0 size1 size2 node].
  rewrite broadcast_dim_one, !broadcast_dim_same. cbn [mbind result_bind].
  eexists. by repeat split.
Qed.

Lemma PositionalEncoding_forward_within_table_witness :
  exists self out,
    PositionalEncoding.init scenario_config = Ok self
    /\ PositionalEncoding.forward self (Tensor 2 6 16 (TInput "x")) = Ok out
    /\ shape out = (2, 6, 16).
Proof.
  destruct (PositionalEncoding_forward_within_table scenario_config
              (Embeddings.pos_emb scenario_embeddings) (Tensor 2 6 16 (TInput "x")))
    as (out & Hout & Hshape & _).
  - reflexivity.
  - reflexivity.
  - simpl. lia.
  - eexists _, out. by repeat split.
Defined.

Lemma table_too_short d e x :
  512 < size1 x ->
  PositionalEncoding.forward
    (PositionalEncoding.Build d (Tensor 1 512 e (TBuffer "pe"))) x
  = Raise RuntimeError.
Proof.
  intros Hl. destruct x as [n l c t]. cbn [size0 size1 size2 node shape] in *.
  unfold PositionalEncoding.forward.
  cbn [PositionalEncoding.pe PositionalEncoding.dropout size0 size1 size2 node].
  rewrite size_1. cbn [mbind result_bind]. rewrite Nat.min_r by lia.
  unfold add, binary. cbn [size0 size1 size2 node].
  rewrite broadcast_dim_one. cbn [mbind result_bind].
  by rewrite (broadcast_dim_mismatch l 512) by lia.
Qed.

(** X2. A sequence longer than the 512 rows of the table is refused:
    [x + self.pe[:, :x.size(1)]] has only 512 rows to add, which do not
    broadcast, and [forward] raises [RuntimeError]. *)
Theorem PositionalEncoding_forward_beyond_table
    (config : Config.t) (self : PositionalEncoding.t) (x : tensor) :
  PositionalEncoding.init config = Ok self ->
  512 < size1 x ->
  PositionalEncoding.forward self x = Raise RuntimeError.
Proof.
  intros Hinit Hl. apply PositionalEncoding_init_inv in Hinit as ->.
  by apply table_too_short.
Qed.

Lemma PositionalEncoding_forward_beyond_table_witness :
  PositionalEncoding.forward (Embeddings.pos_emb scenario_embeddings)
    (Tensor 1 513 16 (TInput "x")) = Raise RuntimeError.
Proof.
  apply (PositionalEncoding_forward_beyond_table scenario_config).
  - reflexivity.
  - simpl. lia.
Defined.

(** X3. For a dropout ratio in [0, 1], [PositionalEncoding] is built for
    every even emb_dim of at least 2.  It cannot be built for an odd emb_dim
    of 3 or more: the cosine table has one column per even index, one more
    than the odd columns it is assigned to, so [init] raises [RuntimeError].
    With emb_dim = 0 the division of math.log(10000.0) by emb_dim raises
    [ZeroDivisionError]. *)
Theorem PositionalEncoding_init_parity (config : Config.t) :
  dropout_ratio_ok config ->
  (Nat.Even (Config.emb_dim config) -> 2 <= Config.emb_dim config ->
   returns (PositionalEncoding.init config))
  /\ (Nat.Odd (Config.emb_dim config) -> 3 <= Config.emb_dim config ->
      PositionalEncoding.init config = Raise RuntimeError)
  /\ (Config.emb_dim config = 0 ->
      PositionalEncoding.init config = Raise ZeroDivisionError).
Proof.
  intros Hd. unfold PositionalEncoding.init, PositionalEncoding.init_with.
  rewrite (Dropout_init_ok _ Hd). cbn [mbind result_bind].
  split; [|split].
  - intros [k Hk] H2. rewrite Hk.
    destruct (Nat.eqb_spec (2 * k) 0); [lia|]. cbn [negb guard_or mbind result_bind].
    replace ((2 * k + 1) / 2) with k.
    2:{ apply (Nat.div_unique _ _ k 1); lia. }
    replace (2 * k / 2) with k by (rewrite Nat.mul_comm, Nat.div_mul; lia).
    rewrite Nat.eqb_refl. cbn. by eexists.
  - intros [k Hk] H3. rewrite Hk.
    destruct (Nat.eqb_spec (2 * k + 1) 0); [lia|].
    cbn [negb guard_or mbind result_bind].
    replace ((2 * k + 1 + 1) / 2) with (k + 1).
    2:{ apply (Nat.div_unique _ _ (k + 1) 0); lia. }
    replace ((2 * k + 1) / 2) with k.
    2:{ apply (Nat.div_unique _ _ k 1); lia. }
    destruct (Nat.eqb_spec (k + 1) k); [lia|].
    destruct (Nat.eqb_spec (k + 1) 1); [lia|]. done.
  - by intros ->.
Qed.

Lemma PositionalEncoding_init_parity_witness :
  returns (PositionalEncoding.init scenario_config)
  /\ PositionalEncoding.init (Config.Build 37 7 16 32 4 2 (1 # 10) 0 "cpu")
     = Raise RuntimeError
  /\ PositionalEncoding.init (Config.Build 37 0 16 32 4 2 (1 # 10) 0 "cpu")
     = Raise ZeroDivisionError.
Proof.
  split; [|split].
  - apply (PositionalEncoding_init_parity scenario_config);
      [reflexivity | by exists 8 | simpl; lia].
  - apply (PositionalEncoding_init_parity (Config.Build 37 7 16 32 4 2 (1 # 10) 0 "cpu"));
      [reflexivity | by exists 3 | simpl; lia].
  - apply (PositionalEncoding_init_parity (Config.Build 37 0 16 32 4 2 (1 # 10) 0 "cpu"));
      reflexivity.
Defined.

Ltac embeddings_start :=
  unfold Embeddings.forward, Embedding_forward;
  cbn [as_long mbind result_bind Embeddings.tok_emb Embeddings.scale
       Embeddings.pos_emb Embeddings.dropout Embeddings.use_fc_layer Embeddings.fc
       nn.Embedding.num_embeddings nn.Embedding.embedding_dim];
  rewrite as_matrix_of_rows.

(** X4. A token id outside [0, vocab_size) makes [Embeddings.forward] raise
    [IndexError] at the table lookup. *)
Theorem Embeddings_forward_id_out_of_range
    (config : Config.t) (self : Embeddings.t) (rows : list (list Z)) :
  Embeddings.init config = Ok self ->
  rectangular rows = true ->
  (exists row i, row ∈ rows /\ i ∈ row
                 /\ (i < 0 \/ Z.of_nat (Config.vocab_size config) <= i)%Z) ->
  Embeddings.forward self (VLong (of_rows rows)) = Raise IndexError.
Proof.
  intros Hinit Hrect (row & i & Hrow & Hi & Hout).
  apply Embeddings_init_inv in Hinit as ->. embeddings_start.
  rewrite Hrect. cbn [guard_or mbind result_bind].
  destruct (forallb _ rows) eqn:Hall; [|done]. exfalso.
  rewrite forallb_forall in Hall.
  apply list_elem_of_In in Hrow. specialize (Hall row Hrow).
  rewrite forallb_forall in Hall.
  apply list_elem_of_In in Hi. specialize (Hall i Hi).
  apply andb_true_iff in Hall as [H0 H1].
  apply Z.leb_le in H0. apply Z.ltb_lt in H1. lia.
Qed.

Lemma Embeddings_forward_id_out_of_range_witness :
  Embeddings.forward scenario_embeddings (VLong (of_rows [[5; 37]]%Z))
  = Raise IndexError.
Proof.
  apply (Embeddings_forward_id_out_of_range scenario_config).
  - reflexivity.
  - reflexivity.
  - exists [5; 37]%Z, 37%Z. split; [apply list_elem_of_here|].
    split; [apply list_elem_of_further, list_elem_of_here|]. right. simpl. lia.
Defined.

(** X5. Token ids of more than 512 positions pass the lookup and are refused
    by the positional encoding: [Embeddings.forward] raises
    [RuntimeError]. *)
Theorem Embeddings_forward_sequence_too_long
    (config : Config.t) (self : Embeddings.t) (rows : list (list Z)) :
  Embeddings.init config = Ok self ->
  rectangular rows = true ->
  forallb (forallb (fun i =>
     (0 <=? i)%Z && (i <? Z.of_nat (Config.vocab_size config))%Z)) rows = true ->
  512 < length (hd [] rows) ->
  Embeddings.forward self (VLong (of_rows rows)) = Raise RuntimeError.
Proof.
  intros Hinit Hrect Hids Hlen.
  apply Embeddings_init_inv in Hinit as ->. embeddings_start.
  rewrite Hrect, Hids. cbn [guard_or mbind result_bind].
  by rewrite table_too_short.
Qed.

Lemma Embeddings_forward_sequence_too_long_witness :
  Embeddings.forward scenario_embeddings (VLong (of_rows [replicate 513 1%Z]))
  = Raise RuntimeError.
Proof.
  apply (Embeddings_forward_sequence_too_long scenario_config).
  - reflexivity.
  - reflexivity.
  - vm_compute. reflexivity.
  - vm_compute. lia.
Defined.

(** ** SeparableConv1D *)

(** X6. A [SeparableConv1D] with at least one input and one output channel
    maps (batch, in_channels, length) to (batch, out_channels, length) for
    every kernel size and every non-empty length: the depthwise stage keeps
    channels and length, the pointwise stage sets the channel count. *)
Theorem SeparableConv1D_forward_shape
    (in_channels out_channels kernel_size : nat) (x : tensor) :
  1 <= in_channels ->
  1 <= out_channels ->
  1 <= kernel_size ->
  size1 x = in_channels ->
  1 <= size2 x ->
  exists self out,
    SeparableConv1D.init in_channels out_channels kernel_size = Ok self
    /\ SeparableConv1D.forward self x = Ok out
    /\ shape out = (size0 x, out_channels, size2 x).
Proof.
  intros Hi Ho Hk Hx Hl. destruct x as [n c l t].
  cbn [size0 size1 size2 node shape] in *. subst c.
  rewrite SeparableConv1D_init_ok by done.
  eexists _, _. split; [reflexivity|].
  by rewrite SeparableConv1D_forward_ok.
Qed.

Lemma SeparableConv1D_forward_shape_witness :
  exists self out,
    SeparableConv1D.init 32 8 9 = Ok self
    /\ SeparableConv1D.forward self (Tensor 2 32 1 (TInput "x")) = Ok out
    /\ shape out = (2, 8, 1).
Proof.
  apply (SeparableConv1D_forward_shape 32 8 9 (Tensor 2 32 1 (TInput "x")));
    simpl; lia.
Defined.

(** X7. A [SeparableConv1D] refuses an input whose channel count differs
    from the in_channels it was built for: [forward] raises [RuntimeError] at
    the depthwise stage. *)
Theorem SeparableConv1D_rejects_channels
    (self : SeparableConv1D.t) (in_channels out_channels kernel_size : nat)
    (x : tensor) :
  SeparableConv1D.init in_channels out_channels kernel_size = Ok self ->
  size1 x <> in_channels ->
  SeparableConv1D.forward self x = Raise RuntimeError.
Proof.
  intros Hinit Hx.
  unfold SeparableConv1D.init in Hinit.
  destruct (nn.Conv1d.init in_channels in_channels _ _ _) as [dw|] eqn:Hdw;
    [|discriminate].
  cbn [mbind result_bind] in Hinit.
  destruct (nn.Conv1d.init in_channels out_channels _ _ _) as [pw|];
    [|discriminate].
  cbn [mbind result_bind] in Hinit. injection Hinit as <-.
  unfold nn.Conv1d.init in Hdw.
  repeat match type of Hdw with
         | (if ?b then _ else _) = _ => destruct b; [discriminate|]
         end.
  injection Hdw as <-.
  unfold SeparableConv1D.forward, Conv1d_forward.
  cbn [SeparableConv1D.depth_wise nn.Conv1d.in_channels].
  by destruct (Nat.eqb_spec (size1 x) in_channels).
Qed.

Lemma SeparableConv1D_rejects_channels_witness :
  SeparableConv1D.forward
    (SeparableConv1D.Build (nn.Conv1d.Build 32 32 9 PadSame 32)
                           (nn.Conv1d.Build 32 8 1 (PadN 0) 1))
    (Tensor 2 16 6 (TInput "x")) = Raise RuntimeError.
Proof.
  apply (SeparableConv1D_rejects_channels _ 32 8 9).
  - reflexivity.
  - simpl. lia.
Defined.

(** ** Construction of the cells *)

Lemma MultiheadAttention_init_inv e heads bf m :
  nn.MultiheadAttention.init e heads bf = Ok m ->
  1 <= e /\ (heads | e) /\ m = nn.MultiheadAttention.Build e heads bf.
Proof.
  unfold nn.MultiheadAttention.init.
  destruct (Nat.eqb_spec e 0); [discriminate|].
  destruct (Nat.eqb_spec heads 0); [discriminate|]. cbn [orb].
  destruct (Nat.eqb_spec (e / heads * heads) e) as [Hd|]; [|discriminate].
  intros [= <-]. split; [lia|]. split; [|done]. by exists (e / heads).
Qed.

Lemma Dropout_init_inv p d :
  nn.Dropout.init p = Ok d ->
  Qle_bool (0 # 1) p && Qle_bool p (1 # 1) = true /\ d = nn.Dropout.Build p.
Proof.
  unfold nn.Dropout.init.
  destruct (Qle_bool _ _ && Qle_bool _ _); [|discriminate]. by intros [= <-].
Qed.

Lemma SeparableConv1D_init_inv i o k m :
  SeparableConv1D.init i o k = Ok m -> 1 <= i.
Proof.
  unfold SeparableConv1D.init, nn.Conv1d.init.
  destruct (Nat.eqb_spec i 0); [discriminate|]. lia.
Qed.

Lemma EncoderCell_init_general config :
  encoder_cell_config config -> EncoderCell.init config = Ok (encoder_cell config).
Proof.
  intros (Hh & Hn & Hp & Hd).
  unfold EncoderCell.init.
  rewrite GatedConvolution_init_ok, !Conv1d_init_ungrouped by done.
  cbn [mbind result_bind].
  rewrite MultiheadAttention_init_ok by done. cbn [mbind result_bind].
  rewrite !Dropout_init_ok by done. cbn [mbind result_bind].
  rewrite SeparableConv1D_init_ok by done. reflexivity.
Qed.

(** X8. [EncoderCell] is built exactly when hidden_dim is at least 1 and
    divisible by n_heads, pff_dim is at least 1 and the dropout ratio lies
    in [0, 1]; nothing else is asked of the configuration (not that pff_dim
    reaches hidden_dim / 2, nor anything of n_layers or emb_dim). *)
Theorem EncoderCell_init_returns_iff (config : Config.t) :
  returns (EncoderCell.init config) <-> encoder_cell_config config.
Proof.
  split.
  - intros [cell Hcell]. revert Hcell. unfold EncoderCell.init.
    destruct (GatedConvolution.init _) as [glu|]; [|discriminate].
    rewrite !Conv1d_init_ungrouped. cbn [mbind result_bind].
    destruct (nn.MultiheadAttention.init _ _ _) as [att|] eqn:Hatt; [|discriminate].
    apply MultiheadAttention_init_inv in Hatt as (Hh & Hn & _).
    cbn [mbind result_bind].
    destruct (nn.Dropout.init _) as [d|] eqn:Hd; [|discriminate].
    apply Dropout_init_inv in Hd as [Hd _]. cbn [mbind result_bind].
    destruct (SeparableConv1D.init _ _ _) as [sep|] eqn:Hsep; [|discriminate].
    apply SeparableConv1D_init_inv in Hsep. by intros _.
  - intros Hc. eexists. by apply EncoderCell_init_general.
Qed.

Lemma DecoderCell_init_general config :
  decoder_cell_config config -> DecoderCell.init config = Ok (decoder_cell config).
Proof.
  intros (Hh & Hn2 & Hd).
  assert (Hn : (Config.n_heads config | Config.hidden_dim config)).
  { destruct Hn2 as [k Hk]. exists (k * 2). lia. }
  unfold DecoderCell.init.
  rewrite Dropout_init_ok by done. cbn [mbind result_bind].
  rewrite !MultiheadAttention_init_ok by done. cbn [mbind result_bind].
  rewrite !SeparableConv1D_init_ok by lia. reflexivity.
Qed.

(** X9. [DecoderCell] is built exactly when hidden_dim is at least 1 and
    divisible by 2 * n_heads and the dropout ratio lies in [0, 1]: its
    attention layers with n_heads * 2 heads decide, pff_dim plays no part. *)
Theorem DecoderCell_init_returns_iff (config : Config.t) :
  returns (DecoderCell.init config) <-> decoder_cell_config config.
Proof.
  split.
  - intros [cell Hcell]. revert Hcell. unfold DecoderCell.init.
    destruct (nn.Dropout.init _) as [d|] eqn:Hd; [|discriminate].
    apply Dropout_init_inv in Hd as [Hd _]. cbn [mbind result_bind].
    destruct (nn.MultiheadAttention.init _ (Config.n_heads config) false)
      as [att|]; [|discriminate].
    cbn [mbind result_bind].
    destruct (nn.MultiheadAttention.init _ (Config.n_heads config * 2) true)
      as [latt|] eqn:Hl; [|discriminate].
    apply MultiheadAttention_init_inv in Hl as (Hh & Hn & _). by intros _.
  - intros Hc. eexists. by apply DecoderCell_init_general.
Qed.

(** ** The cells on further inputs *)

Lemma EncoderCell_forward_general config n l t e_mask :
  encoder_cell_config config -> 1 <= Config.hidden_dim config / 2 ->
  1 <= l -> key_padding_mask_ok e_mask n l ->
  exists b03 out,
    EncoderCell.forward (encoder_cell config)
      (Tensor n l (Config.hidden_dim config) t) e_mask = Ok out
    /\ shape out = (n, l, Config.hidden_dim config)
    /\ pad_call (Config.hidden_dim config / 2) (Config.pff_dim config)
                (Config.pad_id config) ∈ pads_in (node out)
    /\ node out =
         let h := Config.hidden_dim config in
         let p := Config.pff_dim config in
         let norm := T1 (OLayerNorm (nn.LayerNorm.Build h)) in
         let b04 :=
           T2 OAdd (norm b03)
              (TAttention (nn.MultiheadAttention.Build h (Config.n_heads config) true)
                          (norm b03) (norm b03) (norm b03) (mask_term e_mask) None) in
         T2 OAdd
            (T1 (OLinear (nn.Linear.Build p h))
                (T1 OSiLU (T1 (OLinear (nn.Linear.Build h p)) (norm b04))))
            b04.
Proof.
  intros (Hh & Hn & Hp & Hd) Hhalf Hl Hm.
  unfold EncoderCell.forward, encoder_cell. run.
  rewrite GatedConvolution_forward_ok by done. run.
  eexists _, _. split; [reflexivity|]. split; [reflexivity|].
  split; [|reflexivity].
  unfold pad_call. cbn [node pads_in app]. pads_find.
Qed.

(** X10. [EncoderCell.forward] keeps the shape of its input also when
    pff_dim is smaller than hidden_dim / 2: the pad amount
    left_width - right_width of block 2 is then negative and [F.pad] crops
    the right branch to pff_dim channels instead of widening it. *)
Theorem EncoderCell_forward_crops_right_branch
    (config : Config.t) (x : tensor) (e_mask : value) :
  encoder_cell_config config ->
  Config.pff_dim config < Config.hidden_dim config / 2 ->
  1 <= size1 x ->
  size2 x = Config.hidden_dim config ->
  key_padding_mask_ok e_mask (size0 x) (size1 x) ->
  exists cell out amount,
    EncoderCell.init config = Ok cell
    /\ EncoderCell.forward cell x e_mask = Ok out
    /\ shape out = shape x
    /\ ([0; amount; 0; 0; 0; 0]%Z, Constant, Config.pad_id config)
         ∈ pads_in (node out)
    /\ (amount = Z.of_nat (Config.pff_dim config)
                 - Z.of_nat (Config.hidden_dim config / 2))%Z
    /\ (amount < 0)%Z.
Proof.
  intros Hc Hp Hl Hx Hm. destruct x as [n l c t].
  cbn [size0 size1 size2 node shape] in *. subst c.
  assert (Hhalf : 1 <= Config.hidden_dim config / 2) by lia.
  destruct (EncoderCell_forward_general config n l t e_mask Hc Hhalf Hl Hm)
    as (b03 & out & Hout & Hshape & Hpad & _).
  exists (encoder_cell config), out. eexists.
  rewrite EncoderCell_init_general by done.
  repeat split; try done. lia.
Qed.

Lemma EncoderCell_forward_crops_right_branch_witness :
  exists cell out,
    EncoderCell.init (Config.Build 37 16 16 4 4 2 (1 # 10) 0 "cpu") = Ok cell
    /\ EncoderCell.forward cell (Tensor 2 6 16 (TInput "x")) VNone = Ok out
    /\ shape out = (2, 6, 16)
    /\ ([0; -4; 0; 0; 0; 0]%Z, Constant, 0%Z) ∈ pads_in (node out).
Proof.
  destruct (EncoderCell_forward_crops_right_branch
              (Config.Build 37 16 16 4 4 2 (1 # 10) 0 "cpu")
              (Tensor 2 6 16 (TInput "x")) VNone)
    as (cell & out & amount & Hinit & Hout & Hshape & Hpad & -> & _).
  - repeat split; [simpl; lia | by exists 4 | simpl; lia].
  - vm_compute. lia.
  - simpl. lia.
  - reflexivity.
  - by left.
  - by exists cell, out.
Defined.

Lemma EncoderCell_init_inv config cell :
  EncoderCell.init config = Ok cell -> cell = encoder_cell config.
Proof.
  intros Hcell.
  assert (Hc : encoder_cell_config config).
  { apply EncoderCell_init_returns_iff. by exists cell. }
  rewrite (EncoderCell_init_general _ Hc) in Hcell. by injection Hcell.
Qed.

Lemma DecoderCell_init_inv config cell :
  DecoderCell.init config = Ok cell -> cell = decoder_cell config.
Proof.
  intros Hcell.
  assert (Hc : decoder_cell_config config).
  { apply DecoderCell_init_returns_iff. by exists cell. }
  rewrite (DecoderCell_init_general _ Hc) in Hcell. by injection Hcell.
Qed.

(** X11. Both cells refuse, at their first layer norm, an input whose last
    dimension is not hidden_dim: [forward] raises [RuntimeError] whatever
    the masks and the memory are. *)
Theorem cells_reject_wrong_width (config : Config.t)
    (enc : EncoderCell.t) (dec : DecoderCell.t) (x memory : tensor)
    (e_mask d_mask : value) :
  EncoderCell.init config = Ok enc ->
  DecoderCell.init config = Ok dec ->
  size2 x <> Config.hidden_dim config ->
  EncoderCell.forward enc x e_mask = Raise RuntimeError
  /\ DecoderCell.forward dec x memory e_mask d_mask = Raise RuntimeError.
Proof.
  intros He Hd Hx.
  apply EncoderCell_init_inv in He as ->. apply DecoderCell_init_inv in Hd as ->.
  unfold EncoderCell.forward, DecoderCell.forward, encoder_cell, decoder_cell,
    LayerNorm_forward.
  cbn [EncoderCell.layer_norms DecoderCell.layer_norms getitem lookup list_lookup
       replicate mbind result_bind nn.LayerNorm.normalized_shape].
  by destruct (Nat.eqb_spec (size2 x) (Config.hidden_dim config)).
Qed.

Lemma cells_reject_wrong_width_witness :
  EncoderCell.forward (encoder_cell scenario_config)
    (Tensor 2 6 8 (TInput "x")) VNone = Raise RuntimeError
  /\ DecoderCell.forward (decoder_cell scenario_config)
       (Tensor 2 6 8 (TInput "x")) (Tensor 2 6 16 (TInput "memory")) VNone VNone
     = Raise RuntimeError.
Proof.
  apply (cells_reject_wrong_width scenario_config).
  - reflexivity.
  - reflexivity.
  - simpl. lia.
Defined.

(** X12. The attention residual of [EncoderCell] is the normalised state:
    on every input of a cell with hidden_dim of at least 2, block 4 computes
    n = layer_norms[2](B03), adds attention(n, n, n) to n itself (masked by
    e_mask as key padding mask, no attention mask), and blocks 5-6 return
    pff(layer_norms[3](B04)) + B04 for that sum B04. *)
Theorem EncoderCell_forward_output_structure
    (config : Config.t) (x : tensor) (e_mask : value) :
  encoder_cell_config config ->
  2 <= Config.hidden_dim config ->
  1 <= size1 x ->
  size2 x = Config.hidden_dim config ->
  key_padding_mask_ok e_mask (size0 x) (size1 x) ->
  exists cell b03 out,
    EncoderCell.init config = Ok cell
    /\ EncoderCell.forward cell x e_mask = Ok out
    /\ node out =
         let h := Config.hidden_dim config in
         let p := Config.pff_dim config in
         let norm := T1 (OLayerNorm (nn.LayerNorm.Build h)) in
         let b04 :=
           T2 OAdd (norm b03)
              (TAttention (nn.MultiheadAttention.Build h (Config.n_heads config) true)
                          (norm b03) (norm b03) (norm b03) (mask_term e_mask) None) in
         T2 OAdd
            (T1 (OLinear (nn.Linear.Build p h))
                (T1 OSiLU (T1 (OLinear (nn.Linear.Build h p)) (norm b04))))
            b04.
Proof.
  intros Hc Hh2 Hl Hx Hm. destruct x as [n l c t].
  cbn [size0 size1 size2 node shape] in *. subst c.
  assert (Hhalf : 1 <= Config.hidden_dim config / 2)
    by (apply Nat.div_le_lower_bound; lia).
  destruct (EncoderCell_forward_general config n l t e_mask Hc Hhalf Hl Hm)
    as (b03 & out & Hout & _ & _ & Hnode).
  exists (encoder_cell config), b03, out.
  by rewrite EncoderCell_init_general.
Qed.

Lemma EncoderCell_forward_output_structure_witness :
  exists out,
    EncoderCell.forward (encoder_cell scenario_config)
      (Tensor 2 6 16 (TInput "x")) VNone = Ok out.
Proof.
  destruct (EncoderCell_forward_output_structure scenario_config
              (Tensor 2 6 16 (TInput "x")) VNone)
    as (cell & b03 & out & Hinit & Hout & _).
  - repeat split; [simpl; lia | by exists 4 | simpl; lia].
  - simpl. lia.
  - simpl. lia.
  - reflexivity.
  - by left.
  - exists out. injection Hinit as <-. exact Hout.
Defined.

(** ** The stacks *)

(** X13. The stacks take n_layers // 2 cells and do not check that n_layers
    is even: an odd n_layers = 2k + 1 builds exactly the model of
    n_layers = 2k, with k encoder cells and k decoder cells. *)
Theorem odd_n_layers_rounds_down (config : Config.t) (k : nat) :
  EvolvedTransformer.init (set_n_layers config (2 * k + 1))
  = EvolvedTransformer.init (set_n_layers config (2 * k))
  /\ forall model,
       EvolvedTransformer.init (set_n_layers config (2 * k + 1)) = Ok model ->
       length (EvolvedEncoder.cells (EvolvedTransformer.encoder model)) = k
       /\ length (EvolvedDecoder.cells (EvolvedTransformer.decoder model)) = k.
Proof.
  assert (H1 : (2 * k + 1) / 2 = k) by (symmetry; apply (Nat.div_unique _ _ k 1); lia).
  assert (H0 : 2 * k / 2 = k) by (rewrite Nat.mul_comm, Nat.div_mul; lia).
  unfold EvolvedTransformer.init, EvolvedEncoder.init, EvolvedDecoder.init, set_n_layers.
  cbn [Config.n_layers]. rewrite H1, H0. split; [reflexivity|].
  intros model.
  destruct (Embeddings.init _) as [emb|]; [|discriminate].
  cbn [mbind result_bind].
  destruct (EncoderCell.init _) as [enc|]; [|discriminate].
  cbn [mbind result_bind].
  destruct (DecoderCell.init _) as [dec|]; [|discriminate].
  cbn [mbind result_bind]. intros [= <-].
  cbn [EvolvedTransformer.encoder EvolvedTransformer.decoder
       EvolvedEncoder.cells EvolvedDecoder.cells].
  unfold clones. by rewrite !length_replicate.
Qed.

(** X14. With n_layers below 2 the encoder has no cell: the keyword call is
    never made and [EvolvedEncoder.forward] returns what the embeddings
    return (or raises what they raise), whatever the mask is. *)
Theorem encoder_without_cells_returns_embeddings
    (config : Config.t) (self : EvolvedEncoder.t) (x e_mask : value) :
  EvolvedEncoder.init config = Ok self ->
  Config.n_layers config < 2 ->
  EvolvedEncoder.forward self x e_mask
  = Embeddings.forward (EvolvedEncoder.embeddings self) x.
Proof.
  intros Hinit Hn. unfold EvolvedEncoder.init in Hinit.
  destruct (Embeddings.init config) as [emb|]; [|discriminate].
  cbn [mbind result_bind] in Hinit.
  destruct (EncoderCell.init config) as [cell|]; [|discriminate].
  cbn [mbind result_bind] in Hinit. injection Hinit as <-.
  change (Nat.divmod (Config.n_layers config) 1 0 1).1
    with (Config.n_layers config / 2).
  rewrite Nat.div_small by done.
  unfold EvolvedEncoder.forward, clones.
  cbn [EvolvedEncoder.embeddings EvolvedEncoder.cells replicate].
  by destruct (Embeddings.forward emb x).
Qed.

Lemma encoder_without_cells_returns_embeddings_witness :
  exists self out,
    EvolvedEncoder.init (set_n_layers scenario_config 1) = Ok self
    /\ EvolvedEncoder.forward self (VLong scenario_source) (VBool false) = Ok out
    /\ shape out = (2, 6, 16).
Proof.
  eexists (EvolvedEncoder.Build scenario_embeddings []), _.
  split; [reflexivity|].
  rewrite (encoder_without_cells_returns_embeddings
             (set_n_layers scenario_config 1)).
  - split; reflexivity.
  - reflexivity.
  - simpl. lia.
Defined.

Lemma DecoderCell_call_positional cell x memory e_mask d_mask :
  DecoderCell_call cell [VFloat x; VFloat memory; e_mask; d_mask] []
  = DecoderCell.forward cell x memory e_mask d_mask.
Proof. reflexivity. Qed.

Lemma DecoderCell_forward_general config n l s t tm e_mask d_mask :
  decoder_cell_config config -> 1 <= l ->
  key_padding_mask_ok e_mask n s -> attn_mask_ok d_mask l l ->
  exists out,
    DecoderCell.forward (decoder_cell config)
      (Tensor n l (Config.hidden_dim config) t)
      (Tensor n s (Config.hidden_dim config) tm) e_mask d_mask = Ok out
    /\ shape out = (n, l, Config.hidden_dim config)
    /\ (dropouts_in t = 0 -> dropouts_in tm = 0 -> dropouts_in (node out) = 0).
Proof.
  intros (Hh & Hn2 & _) Hl Hm Hd.
  pose proof (even_heads_half _ _ Hh Hn2) as Hhalf.
  unfold DecoderCell.forward, decoder_cell. run.
  eexists. split; [reflexivity|]. split; [reflexivity|].
  intros Ht Htm.
  assert (Hk : mask_term e_mask = None \/ exists b, mask_term e_mask = Some (MBool b)).
  { destruct Hm as [->|(b & -> & _)]; [by left|right; by eexists]. }
  assert (Hk' : mask_term d_mask = None \/ exists b, mask_term d_mask = Some (MBool b)).
  { destruct Hd as [->|(b & -> & _)]; [by left|right; by eexists]. }
  destruct Hk as [->|(b & ->)], Hk' as [->|(b' & ->)];
    cbn [node dropouts_in]; rewrite ?Ht, ?Htm; reflexivity.
Qed.

Lemma decoder_loop_shape config k n l s t tm e_mask d_mask :
  decoder_cell_config config -> 1 <= l ->
  key_padding_mask_ok e_mask n s -> attn_mask_ok d_mask l l ->
  exists out,
    EvolvedDecoder.loop (replicate k (decoder_cell config))
      (Tensor n l (Config.hidden_dim config) t)
      (Tensor n s (Config.hidden_dim config) tm) e_mask d_mask = Ok out
    /\ shape out = (n, l, Config.hidden_dim config).
Proof.
  intros Hc Hl Hm Hd. revert t.
  induction k as [|k IH]; intros t.
  - eexists. by split.
  - cbn [replicate EvolvedDecoder.loop]. rewrite DecoderCell_call_positional.
    destruct (DecoderCell_forward_general config n l s t tm e_mask d_mask Hc Hl Hm Hd)
      as ([n' l' h' t'] & -> & Hs & _).
    cbn [mbind result_bind]. injection Hs as -> -> ->. apply IH.
Qed.

Lemma Embeddings_forward_shape config self rows :
  Embeddings.init config = Ok self ->
  rectangular rows = true ->
  forallb (forallb (fun i =>
     (0 <=? i)%Z && (i <? Z.of_nat (Config.vocab_size config))%Z)) rows = true ->
  length (hd [] rows) <= 512 ->
  exists t,
    Embeddings.forward self (VLong (of_rows rows))
    = Ok (Tensor (length rows) (length (hd [] rows)) (Config.hidden_dim config) t).
Proof.
  intros Hinit Hrect Hids Hlen.
  apply Embeddings_init_inv in Hinit as ->. embeddings_start.
  rewrite Hrect, Hids. cbn [guard_or mbind result_bind].
  unfold PositionalEncoding.forward, unary.
  cbn [size0 size1 size2 node PositionalEncoding.pe PositionalEncoding.dropout].
  rewrite size_1. cbn [mbind result_bind]. rewrite Nat.min_l by done.
  unfold add, binary. cbn [size0 size1 size2 node].
  rewrite broadcast_dim_one, !broadcast_dim_same. cbn [mbind result_bind].
  unfold Dropout_forward, unary. cbn [size0 size1 size2 node].
  destruct (Nat.eqb_spec (Config.emb_dim config) (Config.hidden_dim config))
    as [Heq|Hne]; cbn [negb mbind result_bind].
  - rewrite <- Heq. by eexists.
  - rewrite Linear_forward_ok. cbn [mbind result_bind size0 size1 size2 node].
    by eexists.
Qed.

(** X15. Unlike the encoder, the decoder stack runs: its loop hands the
    state, the memory and both masks to each cell by position.  For token
    ids of shape (batch, tgt_len) with 1 <= tgt_len <= 512 and ids below
    vocab_size, a memory of shape (batch, src_len, hidden_dim) and masks of
    the matching sizes, [EvolvedDecoder.forward] returns a tensor of shape
    (batch, tgt_len, hidden_dim), for any number of layers. *)
Theorem EvolvedDecoder_forward_shape
    (config : Config.t) (self : EvolvedDecoder.t) (rows : list (list Z))
    (memory : tensor) (e_mask d_mask : value) :
  EvolvedDecoder.init config = Ok self ->
  rectangular rows = true ->
  forallb (forallb (fun i =>
     (0 <=? i)%Z && (i <? Z.of_nat (Config.vocab_size config))%Z)) rows = true ->
  1 <= length (hd [] rows) <= 512 ->
  size0 memory = length rows ->
  size2 memory = Config.hidden_dim config ->
  key_padding_mask_ok e_mask (length rows) (size1 memory) ->
  attn_mask_ok d_mask (length (hd [] rows)) (length (hd [] rows)) ->
  exists out,
    EvolvedDecoder.forward self (VLong (of_rows rows)) memory e_mask d_mask = Ok out
    /\ shape out = (length rows, length (hd [] rows), Config.hidden_dim config).
Proof.
  intros Hinit Hrect Hids [Hl1 Hl2] Hm0 Hm2 He Hd.
  destruct memory as [n s c tm]. cbn [size0 size1 size2] in *. subst n c.
  unfold EvolvedDecoder.init in Hinit.
  destruct (Embeddings.init config) as [emb|] eqn:Hemb; [|discriminate].
  cbn [mbind result_bind] in Hinit.
  destruct (DecoderCell.init config) as [cell|] eqn:Hcell; [|discriminate].
  cbn [mbind result_bind] in Hinit. injection Hinit as <-.
  assert (Hc : decoder_cell_config config).
  { apply DecoderCell_init_returns_iff. by exists cell. }
  apply DecoderCell_init_inv in Hcell as ->.
  unfold EvolvedDecoder.forward, clones.
  cbn [EvolvedDecoder.embeddings EvolvedDecoder.cells].
  destruct (Embeddings_forward_shape config emb rows Hemb Hrect Hids Hl2) as [t ->].
  cbn [mbind result_bind]. by apply decoder_loop_shape.
Qed.

Lemma EvolvedDecoder_forward_shape_witness :
  exists self out,
    EvolvedDecoder.init scenario_config = Ok self
    /\ EvolvedDecoder.forward self (VLong (of_rows [[5; 6; 7; 8]; [5; 6; 7; 0]]%Z))
         (Tensor 2 6 16 (TInput "memory")) VNone VNone = Ok out
    /\ shape out = (2, 4, 16).
Proof.
  eexists (EvolvedDecoder.Build scenario_embeddings [decoder_cell scenario_config]).
  destruct (EvolvedDecoder_forward_shape scenario_config
              (EvolvedDecoder.Build scenario_embeddings [decoder_cell scenario_config])
              [[5; 6; 7; 8]; [5; 6; 7; 0]]%Z
              (Tensor 2 6 16 (TInput "memory")) VNone VNone)
    as (out & Hout & Hshape).
  - reflexivity.
  - reflexivity.
  - reflexivity.
  - simpl. lia.
  - reflexivity.
  - reflexivity.
  - by left.
  - by left.
  - exists out. split; [vm_compute; reflexivity|]. split; assumption.
Defined.

(** X16. [DecoderCell] owns a dropout layer that its [forward] never
    applies: when neither the input nor the memory has gone through a
    dropout, neither has the output. *)
Theorem DecoderCell_forward_applies_no_dropout
    (config : Config.t) (x memory : tensor) (e_mask d_mask : value) :
  decoder_cell_config config ->
  1 <= size1 x ->
  size2 x = Config.hidden_dim config ->
  size0 memory = size0 x ->
  size2 memory = Config.hidden_dim config ->
  key_padding_mask_ok e_mask (size0 x) (size1 memory) ->
  attn_mask_ok d_mask (size1 x) (size1 x) ->
  dropouts_in (node x) = 0 ->
  dropouts_in (node memory) = 0 ->
  exists cell out,
    DecoderCell.init config = Ok cell
    /\ DecoderCell.dropout cell = nn.Dropout.Build (Config.dropout_ratio config)
    /\ DecoderCell.forward cell x memory e_mask d_mask = Ok out
    /\ dropouts_in (node out) = 0.
Proof.
  intros Hc Hl Hx Hm0 Hm2 He Hd Hdx Hdm.
  destruct x as [n l c t], memory as [n' s c' tm].
  cbn [size0 size1 size2 node] in *. subst c c' n'.
  destruct (DecoderCell_forward_general config n l s t tm e_mask d_mask Hc Hl He Hd)
    as (out & Hout & _ & Hdrop).
  exists (decoder_cell config), out.
  rewrite DecoderCell_init_general by done. repeat split; try done. by apply Hdrop.
Qed.

Lemma DecoderCell_forward_applies_no_dropout_witness :
  exists out,
    DecoderCell.forward (decoder_cell scenario_config) (Tensor 2 4 16 (TInput "x"))
      (Tensor 2 6 16 (TInput "memory")) VNone VNone = Ok out
    /\ dropouts_in (node out) = 0.
Proof.
  destruct (DecoderCell_forward_applies_no_dropout scenario_config
              (Tensor 2 4 16 (TInput "x")) (Tensor 2 6 16 (TInput "memory"))
              VNone VNone)
    as (cell & out & Hinit & _ & Hout & Hdrop).
  - repeat split; [simpl; lia | by exists 2].
  - simpl. lia.
  - reflexivity.
  - reflexivity.
  - reflexivity.
  - by left.
  - by left.
  - reflexivity.
  - reflexivity.
  - exists out. injection Hinit as <-. by split.
Defined.

(** * Properties of [setup.py] *)

Lemma keep_spec x y :
  Setup.keep x y = true <->
  (10 <= Setup.len x <= 300 /\ 10 <= Setup.len y <= 300
   /\ Z.abs (Setup.len x - Setup.len y) < 50)%Z.
Proof.
  unfold Setup.keep, Setup.min_len, Setup.max_len, Setup.max_diff.
  rewrite !andb_true_iff, !Z.leb_le, Z.ltb_lt. lia.
Qed.

Section process_data.
Variables strip lower : string -> string.


Lemma accepted_cons_keep elem data :
  Setup.keep (normalised strip lower elem).1 (normalised strip lower elem).2 = true ->
  accepted strip lower (elem :: data) = normalised strip lower elem :: accepted strip lower data.
Proof. intros H. unfold accepted. cbn [fmap list_fmap]. by rewrite filter_cons_True. Qed.

Lemma accepted_cons_drop elem data :
  Setup.keep (normalised strip lower elem).1 (normalised strip lower elem).2 = false ->
  accepted strip lower (elem :: data) = accepted strip lower data.
Proof.
  intros H. unfold accepted. cbn [fmap list_fmap].
  rewrite filter_cons_False; [done|]. by rewrite H.
Qed.

(* the loop over a prefix of well-formed elements: it stops inside the
   prefix when the cap is reached there, and goes on after it otherwise *)
Lemma loop_app dv good rest corpus processed cnt :
  Forall has_languages good ->
  Setup.loop strip lower dv (good ++ rest) corpus processed cnt =
  if (cnt <? dv)%Z && (dv - cnt <=? Z.of_nat (length (accepted strip lower good)))%Z
  then Setup.Done
         (corpus ++ lines_of (take (Z.to_nat (dv - cnt)) (accepted strip lower good)),
          processed ++ records_of (take (Z.to_nat (dv - cnt)) (accepted strip lower good)))
  else Setup.loop strip lower dv rest (corpus ++ lines_of (accepted strip lower good))
            (processed ++ records_of (accepted strip lower good))
            (cnt + Z.of_nat (length (accepted strip lower good))).
Proof.
  intros Hgood. revert corpus processed cnt.
  induction Hgood as [|elem good [[en Hen] [de Hde]] Hgood IH];
    intros corpus processed cnt.
  - cbn [app]. unfold accepted. cbn [fmap list_fmap filter list_filter length].
    destruct (Z.ltb_spec cnt dv), (Z.leb_spec (dv - cnt) (Z.of_nat 0));
      cbn [andb]; try lia;
      by rewrite ?app_nil_r, Z.add_0_r.
  - cbn [app Setup.loop]. unfold Setup.getitem. rewrite Hen, Hde.
    assert (Hn : normalised strip lower elem = (lower (strip en), lower (strip de))).
    { unfold normalised. by rewrite Hen, Hde. }
    destruct (Setup.keep (lower (strip en)) (lower (strip de))) eqn:Hk.
    + rewrite accepted_cons_keep by (by rewrite Hn). rewrite Hn.
      cbn [length]. unfold lines_of, records_of.
      destruct (Z.eqb_spec (cnt + 1) dv) as [Heq|Hne].
      * destruct (Z.ltb_spec cnt dv),
          (Z.leb_spec (dv - cnt) (Z.of_nat (S (length (accepted strip lower good)))));
          cbn [andb]; try lia.
        replace (Z.to_nat (dv - cnt)) with 1 by lia. cbn [take].
        by rewrite take_0.
      * rewrite IH. unfold lines_of, records_of.
        destruct (Z.ltb_spec cnt dv), (Z.ltb_spec (cnt + 1) dv),
          (Z.leb_spec (dv - cnt) (Z.of_nat (S (length (accepted strip lower good))))),
          (Z.leb_spec (dv - (cnt + 1)) (Z.of_nat (length (accepted strip lower good))));
          cbn [andb]; try lia;
          try replace (Z.to_nat (dv - cnt)) with (S (Z.to_nat (dv - (cnt + 1)))) by lia;
          cbn [take mbind list_bind fmap list_fmap fst snd app];
          rewrite <- !(assoc_L (++)); cbn [app];
          try replace (cnt + 1 + Z.of_nat (length (accepted strip lower good)))%Z
            with (cnt + Z.of_nat (S (length (accepted strip lower good))))%Z by lia;
          done.
    + rewrite accepted_cons_drop by (by rewrite Hn). apply IH.
Qed.

Lemma process_data_app dv good rest :
  Forall has_languages good ->
  (1 <= dv <= Z.of_nat (length (accepted strip lower good)))%Z ->
  Setup.process_data strip lower (good ++ rest) dv
  = Setup.Done (records_of (selected strip lower dv good),
                [Setup.WriteText "data/corpus.txt"
                   (Setup.join Setup.newline (lines_of (selected strip lower dv good)))]).
Proof.
  intros Hgood Hdv. unfold Setup.process_data, selected.
  rewrite loop_app by done.
  destruct (Z.ltb_spec 0 dv), (Z.leb_spec 1 dv),
    (Z.leb_spec (dv - 0) (Z.of_nat (length (accepted strip lower good))));
    cbn [andb]; try lia.
  by rewrite Z.sub_0_r.
Qed.

(** X17. On data whose elements all have the keys en and de,
    [process_data] returns the stripped, lower-cased pairs that pass the
    length filter, in their order, cut after the first data_volumn of them
    when data_volumn is at least 1; a data_volumn of 0 or less never equals
    the running count, so nothing is cut.  The corpus file gets the two
    sentences of each returned pair, one per line. *)
Theorem process_data_selects (orig_data : list (gmap string string)) (data_volumn : Z) :
  Forall has_languages orig_data ->
  Setup.process_data strip lower orig_data data_volumn
  = Setup.Done (records_of (selected strip lower data_volumn orig_data),
                [Setup.WriteText "data/corpus.txt"
                   (Setup.join Setup.newline
                      (lines_of (selected strip lower data_volumn orig_data)))])
  /\ (1 <= data_volumn ->
      Z.of_nat (length (selected strip lower data_volumn orig_data)) <= data_volumn)%Z
  /\ (data_volumn <= 0 ->
      selected strip lower data_volumn orig_data = accepted strip lower orig_data)%Z.
Proof.
  intros Hdata. split; [|split].
  - unfold Setup.process_data, selected.
    rewrite <- (app_nil_r orig_data) at 1. rewrite loop_app by done.
    cbn [Setup.loop app].
    destruct (Z.ltb_spec 0 data_volumn), (Z.leb_spec 1 data_volumn),
      (Z.leb_spec (data_volumn - 0)
         (Z.of_nat (length (accepted strip lower orig_data))));
      cbn [andb]; try lia; rewrite ?Z.sub_0_r; try done.
    by rewrite take_ge by lia.
  - intros Hdv. unfold selected.
    destruct (Z.leb_spec 1 data_volumn); [|lia]. rewrite length_take. lia.
  - intros Hdv. unfold selected. by destruct (Z.leb_spec 1 data_volumn); [lia|].
Qed.

(** X18. Once data_volumn (at least 1) pairs are accepted the loop breaks:
    what follows in the data is never read, so the result is that of the
    prefix alone, also when later elements lack a key. *)
Theorem process_data_ignores_rest
    (good rest : list (gmap string string)) (data_volumn : Z) :
  Forall has_languages good ->
  (1 <= data_volumn <= Z.of_nat (length (accepted strip lower good)))%Z ->
  Setup.process_data strip lower (good ++ rest) data_volumn
  = Setup.process_data strip lower good data_volumn.
Proof.
  intros Hgood Hdv. rewrite process_data_app by done.
  rewrite <- (app_nil_r good) at 3. by rewrite process_data_app.
Qed.

(** X19. An element without the key en (or, with en, without de) that is
    reached before the cap makes [process_data] fail with [KeyError] on that
    key; the corpus file is then not written. *)
Theorem process_data_missing_key
    (good rest : list (gmap string string)) (bad : gmap string string)
    (data_volumn : Z) :
  Forall has_languages good ->
  (data_volumn <= 0
   \/ Z.of_nat (length (accepted strip lower good)) < data_volumn)%Z ->
  ~ has_languages bad ->
  Setup.process_data strip lower (good ++ bad :: rest) data_volumn
  = Setup.Failed (Setup.KeyError match bad !! "en" with Some _ => "de" | None => "en" end).
Proof.
  intros Hgood Hdv Hbad. unfold Setup.process_data. rewrite loop_app by done.
  destruct (Z.ltb_spec 0 data_volumn),
    (Z.leb_spec (data_volumn - 0) (Z.of_nat (length (accepted strip lower good))));
    cbn [andb]; try lia;
    cbn [Setup.loop]; unfold Setup.getitem;
    (destruct (bad !! "en") as [en|] eqn:Hen; [|done]);
    (destruct (bad !! "de") as [de|] eqn:Hde; [|done]);
    destruct Hbad; by split.
Qed.

Lemma loop_keeps_filter dv data corpus processed cnt corpus' processed' :
  Setup.loop strip lower dv data corpus processed cnt
  = Setup.Done (corpus', processed') ->
  Forall (fun r => exists x y, r = Setup.record x y /\ Setup.keep x y = true)
         processed ->
  Forall (fun r => exists x y, r = Setup.record x y /\ Setup.keep x y = true)
         processed'.
Proof.
  revert corpus processed cnt.
  induction data as [|elem data IH]; intros corpus processed cnt.
  - cbn. by intros [= _ <-].
  - cbn [Setup.loop].
    destruct (Setup.getitem elem "en") as [en|]; [|discriminate].
    destruct (Setup.getitem elem "de") as [de|]; [|discriminate].
    destruct (Setup.keep _ _) eqn:Hk; [|apply IH].
    assert (Forall (fun r => exists x y, r = Setup.record x y /\ Setup.keep x y = true)
                   processed ->
            Forall (fun r => exists x y, r = Setup.record x y /\ Setup.keep x y = true)
                   (processed ++ [Setup.record (lower (strip en)) (lower (strip de))])).
    { intros Hp. apply Forall_app. split; [done|].
      apply Forall_singleton. by eexists _, _. }
    destruct (_ =? _)%Z; [|eauto]. intros [= _ <-]. done.
Qed.

(** X20. Whatever [process_data] returns, every returned record is a pair
    {x, y} whose two sentences have between 10 and 300 characters and differ
    in length by less than 50. *)
Theorem process_data_respects_bounds (orig_data : list (gmap string string))
    (data_volumn : Z) (processed : list (gmap string string)) (writes : list Setup.write) :
  Setup.process_data strip lower orig_data data_volumn
  = Setup.Done (processed, writes) ->
  forall r, r ∈ processed ->
    exists x y,
      r = Setup.record x y
      /\ (10 <= Setup.len x <= 300)%Z
      /\ (10 <= Setup.len y <= 300)%Z
      /\ (Z.abs (Setup.len x - Setup.len y) < 50)%Z.
Proof.
  unfold Setup.process_data.
  destruct (Setup.loop _ _ _ _ _ _ _) as [[corpus processed']|] eqn:Hloop;
    [|discriminate].
  intros [= <- _] r Hr.
  apply loop_keeps_filter in Hloop; [|constructor].
  rewrite Forall_forall in Hloop. destruct (Hloop r Hr) as (x & y & -> & Hk).
  apply keep_spec in Hk. by exists x, y.
Qed.
End process_data.

Lemma process_data_selects_witness :
  Setup.process_data sample_strip id [greeting; too_short; greeting] 0
  = Setup.Done ([Setup.record "Good morning" "Guten Morgen";
                 Setup.record "Good morning" "Guten Morgen"],
                [Setup.WriteText "data/corpus.txt"
                   (Setup.join Setup.newline
                      ["Good morning"; "Guten Morgen"; "Good morning"; "Guten Morgen"])]).
Proof.
  destruct (process_data_selects sample_strip id [greeting; too_short; greeting] 0)
    as (Hrun & _ & _).
  - repeat constructor; by eexists.
  - exact Hrun.
Defined.

Lemma process_data_ignores_rest_witness :
  Setup.process_data sample_strip id ([too_short; greeting] ++ [english_only]) 1
  = Setup.process_data sample_strip id [too_short; greeting] 1.
Proof.
  apply (process_data_ignores_rest sample_strip id).
  - repeat constructor; by eexists.
  - vm_compute. split; discriminate.
Defined.

Lemma process_data_missing_key_witness :
  Setup.process_data sample_strip id ([greeting] ++ english_only :: [greeting]) 2
  = Setup.Failed (Setup.KeyError "de").
Proof.
  apply (process_data_missing_key sample_strip id [greeting] [greeting] english_only 2).
  - repeat constructor; by eexists.
  - right. vm_compute. reflexivity.
  - intros [_ [de Hde]]. vm_compute in Hde. discriminate Hde.
Defined.

Lemma process_data_respects_bounds_witness :
  exists x y,
    Setup.record "Good morning" "Guten Morgen" = Setup.record x y
    /\ (10 <= Setup.len x <= 300)%Z
    /\ (10 <= Setup.len y <= 300)%Z
    /\ (Z.abs (Setup.len x - Setup.len y) < 50)%Z.
Proof.
  apply (process_data_respects_bounds sample_strip id [greeting; too_short] 5
           [Setup.record "Good morning" "Guten Morgen"]
           [Setup.WriteText "data/corpus.txt"
              (Setup.join Setup.newline ["Good morning"; "Guten Morgen"])]).
  - vm_compute. reflexivity.
  - apply list_elem_of_here.
Defined.

(** ** [save_data] and the splits *)

Lemma py_slice_take_drop {A} (l : list A) (lo hi : nat) :
  lo <= hi <= length l ->
  take lo l ++ take (hi - lo) (drop lo l) ++ drop hi l = l.
Proof.
  intros H. rewrite (assoc_L (++)), take_take_drop.
  replace (lo + (hi - lo)) with hi by lia. apply take_drop.
Qed.

(** X21. [save_data] writes three files, train, valid and test in this
    order, whose contents partition the data in order for every length n:
    test is the last min(n, 100) records, valid the up to 5000 records
    before them, and train what comes before; a list of at most 100
    records goes to test alone, leaving train and valid empty. *)
Theorem save_data_partitions (data_obj : list (gmap string string)) :
  exists train valid test,
    Setup.save_data data_obj
    = [Setup.WriteJson "data/train.json" train;
       Setup.WriteJson "data/valid.json" valid;
       Setup.WriteJson "data/test.json" test]
    /\ train ++ valid ++ test = data_obj
    /\ (Z.of_nat (length train) = Z.max (Z.of_nat (length data_obj) - 5100) 0)%Z
    /\ (Z.of_nat (length valid)
        = Z.max (Z.of_nat (length data_obj) - 100) 0
          - Z.max (Z.of_nat (length data_obj) - 5100) 0)%Z
    /\ (Z.of_nat (length test) = Z.min (Z.of_nat (length data_obj)) 100)%Z.
Proof.
  eexists _, _, _. split; [reflexivity|].
  unfold Setup.py_slice. cbn [from_option].
  set (n := Z.of_nat (length data_obj)).
  assert (Hlo : Setup.slice_bound n (-5100) = Z.max (n - 5100) 0).
  { unfold Setup.slice_bound. cbn. lia. }
  assert (Hhi : Setup.slice_bound n (-100) = Z.max (n - 100) 0).
  { unfold Setup.slice_bound. cbn. lia. }
  rewrite Hlo, Hhi.
  cbn [Z.to_nat drop]. rewrite Z.sub_0_r.
  assert (Hn : n = Z.of_nat (length data_obj)) by done.
  split; [|rewrite !length_take, !length_drop; lia].
  rewrite (take_ge (drop (Z.to_nat (Z.max (n - 100) 0)) data_obj))
    by (rewrite length_drop; lia).
  replace (Z.to_nat (Z.max (n - 100) 0 - Z.max (n - 5100) 0))
    with (Z.to_nat (Z.max (n - 100) 0) - Z.to_nat (Z.max (n - 5100) 0)) by lia.
  apply py_slice_take_drop. lia.
Qed.

Section main.
Variables strip lower : string -> string.

(** X22. What [main] chains: [process_data] with a cap of at least 1 on
    data whose elements all have both keys, then [save_data] on its result.
    With n the smaller of the cap and the number of accepted pairs, the
    train, valid and test files hold max(n - 5100, 0), at most 5000 and
    min(n, 100) records, in the order in which they were accepted; for the
    cap 55100 of [main] and at least that many accepted pairs that is
    50000, 5000 and 100. *)
Theorem process_then_save_sizes
    (orig_data : list (gmap string string)) (data_volumn : Z) :
  Forall has_languages orig_data ->
  (1 <= data_volumn)%Z ->
  exists processed corpus train valid test,
    Setup.process_data strip lower orig_data data_volumn
    = Setup.Done (processed, corpus)
    /\ Setup.save_data processed
       = [Setup.WriteJson "data/train.json" train;
          Setup.WriteJson "data/valid.json" valid;
          Setup.WriteJson "data/test.json" test]
    /\ train ++ valid ++ test
       = records_of (take (Z.to_nat data_volumn) (accepted strip lower orig_data))
    /\ (Z.of_nat (length processed)
        = Z.min data_volumn (Z.of_nat (length (accepted strip lower orig_data))))%Z
    /\ (Z.of_nat (length train) = Z.max (Z.of_nat (length processed) - 5100) 0)%Z
    /\ (Z.of_nat (length test) = Z.min (Z.of_nat (length processed)) 100)%Z
    /\ (data_volumn = Setup.data_volumn ->
        Setup.data_volumn <= Z.of_nat (length (accepted strip lower orig_data)) ->
        Z.of_nat (length train) = 50000 /\ Z.of_nat (length valid) = 5000
        /\ Z.of_nat (length test) = 100)%Z.
Proof.
  intros Hdata Hdv.
  destruct (process_data_selects strip lower orig_data data_volumn Hdata)
    as (Hrun & _ & _).
  destruct (save_data_partitions (records_of (selected strip lower data_volumn orig_data)))
    as (train & valid & test & Hsave & Hcat & Htrain & Hvalid & Htest).
  assert (Hsel : selected strip lower data_volumn orig_data
                 = take (Z.to_nat data_volumn) (accepted strip lower orig_data)).
  { unfold selected. by destruct (Z.leb_spec 1 data_volumn); [|lia]. }
  assert (Hlen : (Z.of_nat (length (records_of (selected strip lower data_volumn orig_data)))
                  = Z.min data_volumn
                      (Z.of_nat (length (accepted strip lower orig_data))))%Z).
  { unfold records_of. rewrite length_fmap, Hsel, length_take. lia. }
  eexists _, _, train, valid, test.
  split; [exact Hrun|]. split; [exact Hsave|].
  split; [by rewrite Hcat, Hsel|].
  split; [exact Hlen|]. split; [exact Htrain|]. split; [exact Htest|].
  unfold Setup.data_volumn. intros -> Hmany. lia.
Qed.
End main.

Lemma process_then_save_sizes_witness :
  exists processed corpus,
    Setup.process_data sample_strip id [greeting; too_short; greeting] 1
    = Setup.Done (processed, corpus)
    /\ Setup.save_data processed
       = [Setup.WriteJson "data/train.json" [];
          Setup.WriteJson "data/valid.json" [];
          Setup.WriteJson "data/test.json" [Setup.record "Good morning" "Guten Morgen"]].
Proof.
  destruct (process_then_save_sizes sample_strip id [greeting; too_short; greeting] 1)
    as (processed & corpus & train & valid & test & Hrun & Hsave & _).
  - repeat constructor; by eexists.
  - lia.
  - exists processed, corpus. split; [exact Hrun|].
    vm_compute in Hrun. injection Hrun as <- _. vm_compute. reflexivity.
Defined.
